(** * SMART CVD Risk Reduction: the numeric core of [app_final_fixed.py]

    The development embeds the four utility functions of the application
    ([calculate_ldl_projection], [estimate_10y_risk], [convert_5yr],
    [estimate_lifetime_risk]) and the derived metrics computed by the
    "Results" step of the wizard, and proves the properties stated for them.

    Numbers.  A finite Python [float] is modelled by the real number it
    denotes and float arithmetic by exact real arithmetic; infinities and
    NaN are outside the model.  The exceptions of the numeric library are
    kept: [math.log] raises on a non-positive argument, [math.exp] raises
    when its result is too large for a double, and [/] raises on a zero
    divisor.

    Exact arithmetic differs from double arithmetic in the last bit of a
    product, in which way a value next to a rounding tie is rounded, and in
    where exactly [math.exp] starts to overflow.  The theorems below are
    therefore about order, bounds, outcomes away from the overflow threshold
    and values that are far from a tie; none of them depends on the last
    bit of a computed value. *)

From Stdlib Require Import Reals Lra Lia ZArith String List Bool.
From Stdlib Require Import Ascii DecimalString.
Import ListNotations.
Open Scope R_scope.

(** ** The fragment of the Python runtime used by the application *)

Module Py.

Inductive exn : Type :=
| ValueError          (* "math domain error" *)
| OverflowError       (* "math range error" *)
| ZeroDivisionError.  (* "float division by zero" *)

Inductive result (A : Type) : Type :=
| Ok (a : A)
| Raise (e : exn).
Arguments Ok {A} a.
Arguments Raise {A} e.

Definition bind {A B : Type} (m : result A) (k : A -> result B) : result B :=
  match m with
  | Ok a => k a
  | Raise e => Raise e
  end.

(** [a / b] on floats. *)
Definition truediv (a b : R) : result R :=
  if Req_dec_T b 0 then Raise ZeroDivisionError else Ok (a / b).

(** [math.log x]. *)
Definition math_log (x : R) : result R :=
  if Rle_dec x 0 then Raise ValueError else Ok (ln x).

(** The largest double at which [exp] is still a finite double,
    [log(DBL_MAX)] to fifteen digits. *)
Definition exp_max_arg : R := 709.782712893384.

(** [math.exp x]. *)
Definition math_exp (x : R) : result R :=
  if Rlt_dec exp_max_arg x then Raise OverflowError else Ok (exp x).

(** [x ** y] for a float base [x > 0]; every call site of the application
    has a positive base (see [estimate_10y_risk], [convert_5yr] and
    [estimate_lifetime_risk] below). *)
Definition pow (x y : R) : R := Rpower x y.

(** The builtin [min(a, b)] and [max(a, b)] on numbers. *)
Definition min (a b : R) : R := Rmin a b.
Definition max (a b : R) : R := Rmax a b.

(** Rounding to the nearest integer, ties to the even one. *)
Definition round_half_even (y : R) : Z :=
  let f := Zfloor y in
  let d := y - IZR f in
  if Rlt_dec d (1 / 2) then f
  else if Rlt_dec (1 / 2) d then (f + 1)%Z
  else if Z.even f then f else (f + 1)%Z.

(** [round(x, ndigits)] on a float. *)
Definition round (x : R) (ndigits : nat) : R :=
  IZR (round_half_even (x * 10 ^ ndigits)) / 10 ^ ndigits.

(** Truth value of an optional float: [None] and [0.0] are false. *)
Definition truthy (v : option R) : bool :=
  match v with
  | None => false
  | Some x => if Req_dec_T x 0 then false else true
  end.

End Py.

Notation "x <- m ;; k" := (Py.bind m (fun x => k))
  (at level 61, m at next level, right associativity).

Import Py.

(** ** Utility and risk functions *)

(** The reduction-factor table [E] local to [calculate_ldl_projection]. *)
Definition E : list (string * R) :=
  [ ("Atorvastatin 80 mg"%string, 0.50); ("Rosuvastatin 20 mg"%string, 0.55);
    ("Ezetimibe 10 mg"%string,    0.20); ("Bempedoic acid"%string,     0.18);
    ("PCSK9 inhibitor"%string,    0.60); ("Inclisiran"%string,         0.55) ].

(** Dictionary lookup: [Some v] when [k in d], with [v = d[k]]. *)
Fixpoint dict_get (d : list (string * R)) (k : string) : option R :=
  match d with
  | [] => None
  | (k', v) :: d' => if String.eqb k k' then Some v else dict_get d' k
  end.

(** One iteration of the loop body of [calculate_ldl_projection]. *)
Definition ldl_step (ldl : R) (drug : string) : R :=
  match dict_get E drug with
  | Some e => ldl * (1 - e)
  | None => ldl
  end.

Definition calculate_ldl_projection
    (baseline_ldl : R) (pre_list new_list : list string) : R :=
  let ldl := fold_left ldl_step (pre_list ++ new_list) baseline_ldl in
  max ldl 0.5.

(** The linear predictor [lp] of [estimate_10y_risk]. *)
Definition linear_predictor
    (age sex_v sbp tc hdl sm_v dm_v egfr crp_l vasc : R) : R :=
  0.064 * age + 0.34 * sex_v + 0.02 * sbp + 0.25 * tc
  - 0.25 * hdl + 0.44 * sm_v + 0.51 * dm_v
  - 0.2 * (egfr / 10) + 0.25 * crp_l + 0.4 * vasc.

Definition estimate_10y_risk
    (age : R) (sex : string) (sbp tc hdl : R) (smoker diabetes : bool)
    (egfr crp vasc : R) : result R :=
  let sex_v := if String.eqb sex "Male" then 1 else 0 in
  let sm_v := if smoker then 1 else 0 in
  let dm_v := if diabetes then 1 else 0 in
  crp_l <- math_log (crp + 1) ;;
  let lp := linear_predictor age sex_v sbp tc hdl sm_v dm_v egfr crp_l vasc in
  e <- math_exp (lp - 5.8) ;;
  let raw := 1 - pow 0.900 e in
  Ok (round (min (raw * 100) 95.0) 1).

Definition convert_5yr (r10 : R) : R :=
  let p := min r10 95.0 / 100 in
  round (min ((1 - pow (1 - p) 0.5) * 100) 95.0) 1.

Definition estimate_lifetime_risk (age r10 : R) : R :=
  let years := max (85 - age) 0 in
  let p10 := min r10 95.0 / 100 in
  let annual := 1 - pow (1 - p10) (1 / 10) in
  round (min ((1 - pow (1 - annual) years) * 100) 95.0) 1.

(** Display strings built by [fmt_pct] and [fmt_pp], and the literal
    ["N/A"]; the digits of a formatted number are not modelled. *)
Inductive text : Type :=
| NA
| fmt_pct (x : R)
| fmt_pp (x : R).

(** ** The wizard's session state and its "Results" step *)

Module Session.

Record state : Type := {
  age : Z; sex : string;
  smoker : bool; diabetes : bool; egfr : Z;
  tc : R; hdl : R; ldl0 : R; crp : R;
  pre_stat : string; pre_ez : bool; pre_bemp : bool;
  new_stat : string; new_ez : bool; new_bemp : bool;
  sbp : Z
}.

(** The [defaults] dictionary. *)
Definition defaults : state := {|
  age := 60; sex := "Male";
  smoker := false; diabetes := false; egfr := 90;
  tc := 5.2; hdl := 1.3; ldl0 := 3.0; crp := 2.5;
  pre_stat := "None"; pre_ez := false; pre_bemp := false;
  new_stat := "None"; new_ez := false; new_bemp := false;
  sbp := 140
|}.

Definition statins : list string :=
  [ "None"%string; "Atorvastatin 80 mg"%string; "Rosuvastatin 20 mg"%string ].

(** The ranges enforced by the input widgets of steps 1 to 4. *)
Record in_range (s : state) : Prop := {
  age_range  : (30 <= age s <= 90)%Z;
  sex_range  : sex s = "Male"%string \/ sex s = "Female"%string;
  egfr_range : (15 <= egfr s <= 120)%Z;
  tc_range   : 2.0 <= tc s <= 10.0;
  hdl_range  : 0.5 <= hdl s <= 3.0;
  ldl0_range : 0.5 <= ldl0 s <= 6.0;
  crp_range  : 0.1 <= crp s <= 20.0;
  pre_range  : In (pre_stat s) statins;
  new_range  : In (new_stat s) statins;
  sbp_range  : (90 <= sbp s <= 200)%Z
}.

(** [sum([pre_stat != "None", pre_ez, pre_bemp])]. *)
Definition vasc (s : state) : Z :=
  (0 + Z.b2z (negb (String.eqb (pre_stat s) "None"))
     + Z.b2z (pre_ez s) + Z.b2z (pre_bemp s))%Z.

(** The call of [estimate_10y_risk] made by the Results step. *)
Definition ten_year (s : state) : result R :=
  estimate_10y_risk (IZR (age s)) (sex s) (IZR (sbp s)) (tc s) (hdl s)
                    (smoker s) (diabetes s) (IZR (egfr s)) (crp s)
                    (IZR (vasc s)).

(** The arguments of the [calculate_ldl_projection] call of step 3. *)
Definition pre_list (s : state) : list string :=
  [pre_stat s] ++ (if pre_ez s then ["Ezetimibe 10 mg"%string] else [])
               ++ (if pre_bemp s then ["Bempedoic acid"%string] else []).
Definition new_list (s : state) : list string :=
  [new_stat s] ++ (if new_ez s then ["Ezetimibe 10 mg"%string] else [])
               ++ (if new_bemp s then ["Bempedoic acid"%string] else []).
Definition post_ldl (s : state) : R :=
  calculate_ldl_projection (ldl0 s) (pre_list s) (new_list s).

(** Values computed by the Results step. *)
Record results : Type := {
  r5 : R; r10 : R; rlt : R;
  lifetime : text;
  chart_y : list (option R);
  arr10 : option R;
  rrr10 : option R
}.

(** [arr10 = (r10 - rlt) if age<85 else None]. *)
Definition arr10_of (age : Z) (r10 rlt : R) : option R :=
  if (age <? 85)%Z then Some (r10 - rlt) else None.

(** [rrr10 = round(arr10/r10*100,1) if arr10 else None]. *)
Definition rrr10_of (arr10 : option R) (r10 : R) : result (option R) :=
  match arr10 with
  | Some a =>
      if truthy (Some a)
      then q <- truediv a r10 ;; Ok (Some (round (q * 100) 1))
      else Ok None
  | None => Ok None
  end.

(** [lifetime = "N/A" if age>=85 else fmt_pct(rlt)]. *)
Definition lifetime_of (age : Z) (rlt : R) : text :=
  if (85 <=? age)%Z then NA else fmt_pct rlt.

Definition results_step (s : state) : result results :=
  r10 <- ten_year s ;;
  let r5 := convert_5yr r10 in
  let rlt := estimate_lifetime_risk (IZR (age s)) r10 in
  let lifetime := lifetime_of (age s) rlt in
  let y := [Some r5; Some r10; if (age s <? 85)%Z then Some rlt else None] in
  let arr10 := arr10_of (age s) r10 rlt in
  rrr10 <- rrr10_of arr10 r10 ;;
  Ok {| r5 := r5; r10 := r10; rlt := rlt; lifetime := lifetime;
        chart_y := y; arr10 := arr10; rrr10 := rrr10 |}.

End Session.

(** ** Auxiliary definitions used in the statements *)

(** The value bound to [lp] when [math.log] has returned. *)
Definition lp_of (age : R) (sex : string) (sbp tc hdl : R)
    (smoker diabetes : bool) (egfr crp vasc : R) : R :=
  linear_predictor age (if String.eqb sex "Male" then 1 else 0) sbp tc hdl
    (if smoker then 1 else 0) (if diabetes then 1 else 0) egfr
    (ln (crp + 1)) vasc.

(** [lp] for the call made by the Results step. *)
Definition session_lp (s : Session.state) : R :=
  lp_of (IZR (Session.age s)) (Session.sex s) (IZR (Session.sbp s))
        (Session.tc s) (Session.hdl s) (Session.smoker s) (Session.diabetes s)
        (IZR (Session.egfr s)) (Session.crp s) (IZR (Session.vasc s)).

(** [drug in E]. *)
Definition in_E (drug : string) : bool :=
  match dict_get E drug with
  | Some _ => true
  | None => false
  end.

(** A session at the risky end of every range of the form, at a given age. *)
Definition high_risk (a : Z) : Session.state := {|
  Session.age := a; Session.sex := "Male";
  Session.smoker := true; Session.diabetes := true; Session.egfr := 15;
  Session.tc := 10.0; Session.hdl := 0.5; Session.ldl0 := 3.0;
  Session.crp := 20.0;
  Session.pre_stat := "None"; Session.pre_ez := false;
  Session.pre_bemp := false;
  Session.new_stat := "None"; Session.new_ez := false;
  Session.new_bemp := false;
  Session.sbp := 200
|}.

(** ** The engine as the specification words it *)

Module Spec.

(** Lifetime risk: not applicable from age 85 on, otherwise the projection
    of the annual rate over the 85 - age remaining years. *)
Definition estimateLifetimeRisk (age tenYearRisk : R) : option R :=
  if Rle_dec 85 age then None
  else
    let p := Rmin tenYearRisk 95.0 / 100 in
    let annual := 1 - Rpower (1 - p) (1 / 10) in
    let years := 85 - age in
    Some (round (Rmin ((1 - Rpower (1 - annual) years) * 100) 95.0) 1).

End Spec.

(** ** Step 1: the body-mass index *)

(** [bmi = weight/((height/100)**2)]; the exponent is the integer 2.  The
    two arguments are the values of the number inputs of the lines above,
    which keep the weight in [40, 200] and the height in [140, 210]. *)
Definition bmi (weight height : R) : result R :=
  truediv weight ((height / 100) ^ 2).

(** ** The wizard: steps, navigation and progress indicator *)

Module Wizard.

(** [str(n)] for an integer, as an f-string renders it. *)
Definition str (n : Z) : string := NilZero.string_of_int (Z.to_int n).

Definition steps : list string :=
  [ "Profile"%string; "Labs"%string; "Therapies"%string; "Results"%string ].

(** The current step and the lines written to the analytics log. *)
Record state : Type := {
  step : Z;
  log : list string
}.

(** [logging.info(f"Moved to step {st.session_state.step}")]. *)
Definition log_moved (n : Z) (lines : list string) : list string :=
  lines ++ [("Moved to step " ++ str n)%string].

Definition go_next (w : state) : state :=
  if (step w <? 3)%Z
  then {| step := step w + 1; log := log_moved (step w + 1) (log w) |}
  else w.

Definition go_back (w : state) : state :=
  if (0 <? step w)%Z
  then {| step := step w - 1; log := log_moved (step w - 1) (log w) |}
  else w.

(** The navigation buttons of one run of the script: [back] and [next] are
    the values returned by [st.button("Back")] and [st.button("Next")]. *)
Definition navigate (back next : bool) (w : state) : state :=
  let w1 := if back && (0 <? step w)%Z then go_back w else w in
  if next && (step w1 <? 3)%Z then go_next w1 else w1.

(** A press of one button. *)
Inductive click : Type := Back | Next.

Definition press (w : state) (c : click) : state :=
  match c with
  | Back => navigate true false w
  | Next => navigate false true w
  end.

(** [enumerate(l)], counting from [i]. *)
Fixpoint enumerate_from {A : Type} (i : Z) (l : list A) : list (Z * A) :=
  match l with
  | [] => []
  | x :: l' => (i, x) :: enumerate_from (i + 1) l'
  end.

(** [cls = "current" if i==st.session_state.step else ""]. *)
Definition cls (w : state) (i : Z) : string :=
  if (i =? step w)%Z then "current" else "".

Definition dquote : string := String (ascii_of_nat 34) EmptyString.

(** The markup of one cell of the progress indicator. *)
Definition cell (w : state) (il : Z * string) : string :=
  let (i, label) := il in
  ("<div class=" ++ dquote ++ "progress" ++ " " ++ cls w i ++ dquote ++ ">"
   ++ str (i + 1) ++ ". " ++ label ++ "</div>")%string.

Definition progress (w : state) : list string :=
  map (cell w) (enumerate_from 0 steps).

(** The classes of the cells, in order. *)
Definition progress_classes (w : state) : list string :=
  map (fun il : Z * string => cls w (fst il)) (enumerate_from 0 steps).

End Wizard.

(** ** The session state as a dictionary, and its initialisation *)

Module Store.

Inductive value : Type :=
| VInt (z : Z)
| VFloat (x : R)
| VStr (s : string)
| VBool (b : bool).

(** [st.session_state]: keys in insertion order, no key twice. *)
Definition t : Type := list (string * value).

(** [st[k]], [None] when [k not in st]. *)
Fixpoint get (st : t) (k : string) : option value :=
  match st with
  | [] => None
  | (k', v) :: st' => if String.eqb k k' then Some v else get st' k
  end.

(** [k in st]. *)
Definition contains (st : t) (k : string) : bool :=
  match get st k with
  | Some _ => true
  | None => false
  end.

(** [st[k] = v]: an existing key keeps its place, a new one goes last. *)
Fixpoint set (st : t) (k : string) (v : value) : t :=
  match st with
  | [] => [(k, v)]
  | (k', v') :: st' =>
      if String.eqb k k' then (k, v) :: st' else (k', v') :: set st' k v
  end.

(** The [defaults] dictionary. *)
Definition defaults : t :=
  [ ("age"%string, VInt 60); ("sex"%string, VStr "Male");
    ("weight"%string, VFloat 75.0); ("height"%string, VFloat 170.0);
    ("smoker"%string, VBool false); ("diabetes"%string, VBool false);
    ("egfr"%string, VInt 90);
    ("tc"%string, VFloat 5.2); ("hdl"%string, VFloat 1.3);
    ("ldl0"%string, VFloat 3.0); ("crp"%string, VFloat 2.5);
    ("hba1c"%string, VFloat 7.0); ("tg"%string, VFloat 1.2);
    ("pre_stat"%string, VStr "None"); ("pre_ez"%string, VBool false);
    ("pre_bemp"%string, VBool false);
    ("new_stat"%string, VStr "None"); ("new_ez"%string, VBool false);
    ("new_bemp"%string, VBool false);
    ("sbp"%string, VInt 140) ].

(** [if k not in st.session_state: st.session_state[k] = v]. *)
Definition init_key (st : t) (kv : string * value) : t :=
  if contains st (fst kv) then st else set st (fst kv) (snd kv).

(** [for k,v in d.items(): ...]. *)
Definition init_from (d : t) (st : t) : t := fold_left init_key d st.

Definition init_defaults (st : t) : t := init_from defaults st.

(** [if "step" not in st.session_state: st.session_state.step = 0]. *)
Definition init_step (st : t) : t :=
  if contains st "step" then st else set st "step" (VInt 0).

(** The state in which the first run of the script renders its page. *)
Definition fresh : t := init_defaults (init_step []).

Inductive error : Type :=
| AttributeError (key : string)
| TypeError.

Inductive outcome (A : Type) : Type :=
| Done (a : A)
| Failed (e : error).
Arguments Done {A} a.
Arguments Failed {A} e.

Definition and_then {A B : Type} (m : outcome A) (k : A -> outcome B)
  : outcome B :=
  match m with
  | Done a => k a
  | Failed e => Failed e
  end.

(** [st.session_state.k], which fails on a key that was never set. *)
Definition getattr (st : t) (k : string) : outcome value :=
  match get st k with
  | Some v => Done v
  | None => Failed (AttributeError k)
  end.

(** A value used as a number; a string is not one. *)
Definition number (v : value) : outcome R :=
  match v with
  | VInt z => Done (IZR z)
  | VFloat x => Done x
  | VBool b => Done (if b then 1 else 0)
  | VStr _ => Failed TypeError
  end.

End Store.

(** ** Step 3: therapies *)

Module Therapies.

Import Store.

(** What the user has selected in the widgets of the step. *)
Record choices : Type := {
  pre_stat : string; pre_ez : bool; pre_bemp : bool;
  new_stat : string; new_ez : bool; new_bemp : bool;
  pcsk9 : bool; inclisiran : bool
}.

(** The two lists handed to [calculate_ldl_projection]. *)
Definition pre_list (c : choices) : list string :=
  [pre_stat c] ++ (if pre_ez c then ["Ezetimibe 10 mg"%string] else [])
               ++ (if pre_bemp c then ["Bempedoic acid"%string] else []).
Definition new_list (c : choices) : list string :=
  [new_stat c] ++ (if new_ez c then ["Ezetimibe 10 mg"%string] else [])
               ++ (if new_bemp c then ["Bempedoic acid"%string] else []).

(** [disabled=(post_ldl<=1.8)]. *)
Definition disabled (post_ldl : R) : bool :=
  if Rle_dec post_ldl 1.8 then true else false.

(** What the step leaves behind: the session state, the projected LDL and
    whether the PCSK9 inhibitor and inclisiran boxes are disabled. *)
Record rendered : Type := {
  store : Store.t;
  post_ldl : R;
  boxes_disabled : bool
}.

(** [st.session_state.k = st.checkbox(..., value=st.session_state.k)]: the
    old value is read, then the user's choice is stored. *)
Definition checkbox (st : Store.t) (k : string) (choice : bool)
  : outcome Store.t :=
  and_then (getattr st k) (fun _ => Done (set st k (VBool choice))).

(** [st.session_state.k = st.selectbox(..., index=0)]: nothing is read. *)
Definition selectbox (st : Store.t) (k : string) (choice : string)
  : Store.t :=
  set st k (VStr choice).

(** The body of [elif st.session_state.step==2]; the lists are built from
    the values the widgets have just stored. *)
Definition render (st : Store.t) (c : choices) : outcome rendered :=
  let st := selectbox st "pre_stat" (pre_stat c) in
  and_then (checkbox st "pre_ez" (pre_ez c)) (fun st =>
  and_then (checkbox st "pre_bemp" (pre_bemp c)) (fun st =>
  let st := selectbox st "new_stat" (new_stat c) in
  and_then (checkbox st "new_ez" (new_ez c)) (fun st =>
  and_then (checkbox st "new_bemp" (new_bemp c)) (fun st =>
  and_then (getattr st "ldl0") (fun ldl0 =>
  and_then (number ldl0) (fun baseline =>
  let post := calculate_ldl_projection baseline (pre_list c) (new_list c) in
  and_then (checkbox st "pcsk9" (pcsk9 c)) (fun st =>
  and_then (checkbox st "inclisiran" (inclisiran c)) (fun st =>
  Done {| store := st; post_ldl := post;
          boxes_disabled := disabled post |})))))))).

(** The keys the step reads before it writes them. *)
Definition needed : list string :=
  [ "pre_ez"%string; "pre_bemp"%string; "new_ez"%string; "new_bemp"%string;
    "ldl0"%string; "pcsk9"%string; "inclisiran"%string ].

End Therapies.

(** The session state once every widget of the Therapies step has stored
    the user's choice. *)
Definition stored (st : Store.t) (c : Therapies.choices) : Store.t :=
  let st := Store.set st "pre_stat" (Store.VStr (Therapies.pre_stat c)) in
  let st := Store.set st "pre_ez" (Store.VBool (Therapies.pre_ez c)) in
  let st := Store.set st "pre_bemp" (Store.VBool (Therapies.pre_bemp c)) in
  let st := Store.set st "new_stat" (Store.VStr (Therapies.new_stat c)) in
  let st := Store.set st "new_ez" (Store.VBool (Therapies.new_ez c)) in
  let st := Store.set st "new_bemp" (Store.VBool (Therapies.new_bemp c)) in
  let st := Store.set st "pcsk9" (Store.VBool (Therapies.pcsk9 c)) in
  Store.set st "inclisiran" (Store.VBool (Therapies.inclisiran c)).

(** The keys the Therapies step writes. *)
Definition written : list string :=
  [ "pre_stat"%string; "pre_ez"%string; "pre_bemp"%string;
    "new_stat"%string; "new_ez"%string; "new_bemp"%string;
    "pcsk9"%string; "inclisiran"%string ].

(** The first key of [ks] that the session state does not hold. *)
Fixpoint first_missing (st : Store.t) (ks : list string) : option string :=
  match ks with
  | [] => None
  | k :: ks' => if Store.contains st k then first_missing st ks' else Some k
  end.

(** The two statins offered by the select boxes. *)
Definition statin (drug : string) : Prop :=
  drug = "Atorvastatin 80 mg"%string \/ drug = "Rosuvastatin 20 mg"%string.

(** Product of the factors [1 - E[drug]] of the identifiers found in [E]. *)
Definition ldl_factor (drugs : list string) : R :=
  fold_left ldl_step drugs 1.

(** The session [s] with other pre-admission therapies. *)
Definition with_pre (s : Session.state) (pre_stat : string)
    (pre_ez pre_bemp : bool) : Session.state := {|
  Session.age := Session.age s; Session.sex := Session.sex s;
  Session.smoker := Session.smoker s; Session.diabetes := Session.diabetes s;
  Session.egfr := Session.egfr s;
  Session.tc := Session.tc s; Session.hdl := Session.hdl s;
  Session.ldl0 := Session.ldl0 s; Session.crp := Session.crp s;
  Session.pre_stat := pre_stat; Session.pre_ez := pre_ez;
  Session.pre_bemp := pre_bemp;
  Session.new_stat := Session.new_stat s; Session.new_ez := Session.new_ez s;
  Session.new_bemp := Session.new_bemp s;
  Session.sbp := Session.sbp s
|}.

(** ** Rounding *)

Section Rounding.

Lemma round_half_even_near (y : R) :
  IZR (round_half_even y) - 1 / 2 <= y <= IZR (round_half_even y) + 1 / 2.
Proof.
  unfold round_half_even.
  pose proof (Zfloor_bound y) as [Hlo Hhi].
  destruct (Rlt_dec (y - IZR (Zfloor y)) (1 / 2)) as [Hd | Hd].
  - lra.
  - destruct (Rlt_dec (1 / 2) (y - IZR (Zfloor y))) as [Hu | Hu].
    + rewrite plus_IZR. lra.
    + destruct (Z.even (Zfloor y)); [| rewrite plus_IZR]; lra.
Qed.

Lemma round_half_even_IZR (k : Z) : round_half_even (IZR k) = k.
Proof.
  unfold round_half_even. rewrite ZfloorZ.
  destruct (Rlt_dec (IZR k - IZR k) (1 / 2)) as [_ | Hd]; [reflexivity | lra].
Qed.

Lemma round_half_even_le (x y : R) :
  x <= y -> (round_half_even x <= round_half_even y)%Z.
Proof.
  intros Hxy.
  destruct (Z_le_gt_dec (round_half_even x) (round_half_even y)) as [H | H];
    [exact H | exfalso].
  assert (Hz : (round_half_even y + 1 <= round_half_even x)%Z) by lia.
  apply IZR_le in Hz. rewrite plus_IZR in Hz.
  pose proof (round_half_even_near x) as [Hx _].
  pose proof (round_half_even_near y) as [_ Hy].
  assert (Heq : x = y) by lra.
  subst y. lia.
Qed.

Lemma round_1 (x : R) : round x 1 = IZR (round_half_even (x * 10)) / 10.
Proof. unfold round. replace (10 ^ 1) with 10 by (simpl; lra). reflexivity. Qed.

(** A number with one decimal is left unchanged. *)
Lemma round_tenth (k : Z) : round (IZR k / 10) 1 = IZR k / 10.
Proof.
  rewrite round_1. replace (IZR k / 10 * 10) with (IZR k) by lra.
  now rewrite round_half_even_IZR.
Qed.

Lemma round_le (x y : R) : x <= y -> round x 1 <= round y 1.
Proof.
  intros Hxy. rewrite !round_1.
  assert (H : (round_half_even (x * 10) <= round_half_even (y * 10))%Z)
    by (apply round_half_even_le; lra).
  apply IZR_le in H. lra.
Qed.

Lemma round_0 : round 0 1 = 0.
Proof. replace 0 with (IZR 0 / 10) at 1 by lra. rewrite round_tenth. lra. Qed.

Lemma round_95 : round 95.0 1 = 95.0.
Proof. replace 95.0 with (IZR 950 / 10) by lra. now rewrite round_tenth. Qed.

Lemma round_between (x : R) : 0 <= x <= 95.0 -> 0 <= round x 1 <= 95.0.
Proof.
  intros [H0 H1]. split.
  - rewrite <- round_0. now apply round_le.
  - rewrite <- round_95. now apply round_le.
Qed.

(** Every rounded value is a whole number of tenths. *)
Lemma round_is_tenth (x : R) : exists k : Z, round x 1 = IZR k / 10.
Proof. exists (round_half_even (x * 10)). apply round_1. Qed.

End Rounding.

(** ** Facts about [**] on a positive base *)

Section Power.

Lemma pow_gt_0 (x y : R) : 0 < pow x y.
Proof. unfold pow, Rpower. apply exp_pos. Qed.

Lemma pow_0_r (x : R) : pow x 0 = 1.
Proof. unfold pow, Rpower. rewrite Rmult_0_l. apply exp_0. Qed.

Lemma pow_1_r (x : R) : 0 < x -> pow x 1 = x.
Proof. apply Rpower_1. Qed.

Lemma pow_pow (x y z : R) : pow (pow x y) z = pow x (y * z).
Proof. apply Rpower_mult. Qed.

Lemma exp_le (x y : R) : x <= y -> exp x <= exp y.
Proof.
  intros [H | H]; [left; now apply exp_increasing | subst; apply Rle_refl].
Qed.

Lemma ln_le_0 (a : R) : 0 < a <= 1 -> ln a <= 0.
Proof.
  intros [Ha [H | H]].
  - left. rewrite <- ln_1. now apply ln_increasing.
  - subst a. rewrite ln_1. apply Rle_refl.
Qed.

(** On a base in (0,1] the power decreases as the exponent grows. *)
Lemma pow_antitone (a y z : R) : 0 < a <= 1 -> y <= z -> pow a z <= pow a y.
Proof.
  intros Ha Hyz. unfold pow, Rpower. apply exp_le.
  pose proof (ln_le_0 a Ha). nra.
Qed.

Lemma pow_le_1 (a y : R) : 0 < a <= 1 -> 0 <= y -> pow a y <= 1.
Proof.
  intros Ha Hy. rewrite <- (pow_0_r a). now apply pow_antitone.
Qed.

(** The power grows with a positive base when the exponent is not
    negative. *)
Lemma pow_monotone_l (a b y : R) : 0 <= y -> 0 < a <= b -> pow a y <= pow b y.
Proof. intros; now apply Rle_Rpower_l. Qed.

(** The bases of [**] in [convert_5yr] and [estimate_lifetime_risk] are
    positive whatever the argument, thanks to the cap at 95.0. *)
Lemma survival_base_positive (r10 : R) : 0 < 1 - min r10 95.0 / 100.
Proof. unfold min. pose proof (Rmin_r r10 95.0). lra. Qed.

Lemma pow_nat (x : R) (n : nat) : 0 < x -> pow x (INR n) = x ^ n.
Proof. apply Rpower_pow. Qed.

Lemma exp_nat (n : nat) : exp (INR n) = exp 1 ^ n.
Proof.
  induction n as [| n IH].
  - simpl. apply exp_0.
  - rewrite S_INR, exp_plus, IH. simpl. ring.
Qed.

Lemma exp_1_ge_2 : 2 <= exp 1.
Proof. pose proof (exp_ineq1_le 1). lra. Qed.

End Power.

(** ** Outcome of [estimate_10y_risk] *)

Section TenYear.

Variables (age : R) (sex : string) (sbp tc hdl : R)
          (smoker diabetes : bool) (egfr crp vasc : R).

Let lp := lp_of age sex sbp tc hdl smoker diabetes egfr crp vasc.
Let run := estimate_10y_risk age sex sbp tc hdl smoker diabetes egfr crp vasc.

Lemma estimate_domain_error : crp <= -1 -> run = Raise ValueError.
Proof.
  intros Hc. unfold run, estimate_10y_risk, math_log.
  destruct (Rle_dec (crp + 1) 0) as [_ | Hn]; [reflexivity | lra].
Qed.

Lemma estimate_range_error :
  -1 < crp -> exp_max_arg < lp - 5.8 -> run = Raise OverflowError.
Proof.
  intros Hc Hlp. unfold run, estimate_10y_risk, math_log.
  destruct (Rle_dec (crp + 1) 0) as [Hn | _]; [lra |].
  cbn [bind]. unfold math_exp, lp, lp_of in *.
  destruct (Rlt_dec exp_max_arg _) as [_ | Hn]; [reflexivity | lra].
Qed.

Lemma estimate_value :
  -1 < crp -> lp - 5.8 <= exp_max_arg ->
  run = Ok (round (min ((1 - pow 0.900 (exp (lp - 5.8))) * 100) 95.0) 1).
Proof.
  intros Hc Hlp. unfold run, estimate_10y_risk, math_log.
  destruct (Rle_dec (crp + 1) 0) as [Hn | _]; [lra |].
  cbn [bind]. unfold math_exp, lp, lp_of in *.
  destruct (Rlt_dec exp_max_arg _) as [Hn | _]; [lra | reflexivity].
Qed.

(** The three outcomes are exclusive and exhaustive. *)
Lemma estimate_returns_inv (r : R) :
  run = Ok r ->
  -1 < crp /\ lp - 5.8 <= exp_max_arg /\
  r = round (min ((1 - pow 0.900 (exp (lp - 5.8))) * 100) 95.0) 1.
Proof.
  intros Hrun.
  destruct (Rle_dec crp (-1)) as [Hc | Hc].
  - rewrite (estimate_domain_error Hc) in Hrun. discriminate.
  - apply Rnot_le_lt in Hc.
    destruct (Rlt_dec exp_max_arg (lp - 5.8)) as [Hlp | Hlp].
    + rewrite (estimate_range_error Hc Hlp) in Hrun. discriminate.
    + apply Rnot_lt_le in Hlp.
      rewrite (estimate_value Hc Hlp) in Hrun. injection Hrun as <-.
      repeat split; assumption.
Qed.

(** A returned risk is a whole number of tenths between 0 and 95. *)
Lemma estimate_returns_percentage (r : R) :
  run = Ok r -> 0 <= r <= 95.0 /\ exists k : Z, r = IZR k / 10.
Proof.
  intros Hrun. apply estimate_returns_inv in Hrun as (_ & _ & ->).
  split; [| apply round_is_tenth].
  apply round_between.
  pose proof (pow_gt_0 0.900 (exp (lp - 5.8))) as Hpos.
  assert (Hle : pow 0.900 (exp (lp - 5.8)) <= 1).
  { apply pow_le_1; [lra | left; apply exp_pos]. }
  unfold min, Rmin.
  destruct (Rle_dec _ _); lra.
Qed.

End TenYear.

(** ** The horizon converters *)

Section Converters.

Variable r10 : R.
Hypothesis r10_range : 0 <= r10 <= 95.0.

Let p := r10 / 100.

Lemma capped_probability : min r10 95.0 / 100 = p.
Proof. unfold min, p. rewrite Rmin_left by lra. reflexivity. Qed.

Lemma survival_range : 0 < 1 - p <= 1.
Proof. unfold p. lra. Qed.

(** The uncapped five-year percentage lies between 0 and the ten-year
    risk. *)
Lemma five_year_raw_range : 0 <= (1 - pow (1 - p) 0.5) * 100 <= r10.
Proof.
  pose proof survival_range as Hs.
  assert (H1 : pow (1 - p) 0.5 <= 1) by (apply pow_le_1; [exact Hs | lra]).
  assert (H2 : pow (1 - p) 1 <= pow (1 - p) 0.5)
    by (apply pow_antitone; [exact Hs | lra]).
  rewrite pow_1_r in H2 by lra. unfold p in *. lra.
Qed.

Lemma convert_5yr_range : 0 <= convert_5yr r10 <= 95.0.
Proof.
  unfold convert_5yr. rewrite capped_probability.
  pose proof five_year_raw_range as H.
  apply round_between. unfold min. rewrite Rmin_left by lra. lra.
Qed.

Lemma convert_5yr_le (k : Z) : r10 = IZR k / 10 -> convert_5yr r10 <= r10.
Proof.
  intros Hk. unfold convert_5yr. rewrite capped_probability.
  pose proof five_year_raw_range as H.
  unfold min. rewrite Rmin_left by lra.
  apply Rle_trans with (round r10 1); [apply round_le; lra |].
  rewrite Hk, round_tenth. apply Rle_refl.
Qed.

Variable age : R.

Let years := max (85 - age) 0.

Lemma years_nonneg : 0 <= years.
Proof. unfold years, max. apply Rmax_r. Qed.

(** The survival over [years] years, as computed from the annual rate. *)
Lemma lifetime_survival :
  pow (1 - (1 - pow (1 - p) (1 / 10))) years = pow (1 - p) (years / 10).
Proof.
  replace (1 - (1 - pow (1 - p) (1 / 10))) with (pow (1 - p) (1 / 10)) by lra.
  rewrite pow_pow. f_equal. lra.
Qed.

Lemma lifetime_unfold :
  estimate_lifetime_risk age r10 =
  round (min ((1 - pow (1 - p) (years / 10)) * 100) 95.0) 1.
Proof.
  unfold estimate_lifetime_risk. rewrite capped_probability.
  fold years. now rewrite lifetime_survival.
Qed.

Lemma estimate_lifetime_risk_range :
  0 <= estimate_lifetime_risk age r10 <= 95.0.
Proof.
  rewrite lifetime_unfold. apply round_between.
  pose proof years_nonneg as Hy.
  assert (H1 : pow (1 - p) (years / 10) <= 1)
    by (apply pow_le_1; [exact survival_range | lra]).
  unfold min, Rmin. destruct (Rle_dec _ _); lra.
Qed.

(** With a horizon of ten years or more the lifetime risk is at least the
    ten-year risk. *)
Lemma lifetime_ge_ten_year (k : Z) :
  r10 = IZR k / 10 -> age <= 75 -> r10 <= estimate_lifetime_risk age r10.
Proof.
  intros Hk Hage. rewrite lifetime_unfold.
  assert (Hy : 10 <= years).
  { unfold years, max. apply Rle_trans with (85 - age); [lra | apply Rmax_l]. }
  assert (H1 : pow (1 - p) (years / 10) <= pow (1 - p) 1)
    by (apply pow_antitone; [exact survival_range | lra]).
  rewrite pow_1_r in H1 by (apply survival_range).
  apply Rle_trans with (round r10 1);
    [rewrite Hk, round_tenth; apply Rle_refl |].
  apply round_le. unfold min, Rmin, p in *. destruct (Rle_dec _ _); lra.
Qed.

(** With a horizon of exactly ten years it is the ten-year risk. *)
Lemma lifetime_at_75 (k : Z) :
  r10 = IZR k / 10 -> age = 75 -> estimate_lifetime_risk age r10 = r10.
Proof.
  intros Hk Hage. rewrite lifetime_unfold.
  assert (Hy : years = 10).
  { unfold years, max. rewrite Rmax_left by lra. lra. }
  rewrite Hy. replace (10 / 10) with 1 by lra.
  rewrite pow_1_r by (apply survival_range).
  unfold min. rewrite Rmin_left by (unfold p; lra).
  replace ((1 - (1 - p)) * 100) with r10 by (unfold p; lra).
  rewrite Hk. apply round_tenth.
Qed.

End Converters.

(** From age 85 on the horizon is empty and the function returns 0.0,
    whatever the ten-year risk. *)
Lemma lifetime_from_85 (age r10 : R) :
  85 <= age -> estimate_lifetime_risk age r10 = 0.
Proof.
  intros Hage. unfold estimate_lifetime_risk, max.
  rewrite Rmax_right by lra. rewrite pow_0_r.
  replace ((1 - 1) * 100) with 0 by lra.
  unfold min. rewrite Rmin_left by lra. apply round_0.
Qed.

Lemma lifetime_of_zero_risk (age : R) : estimate_lifetime_risk age 0 = 0.
Proof.
  rewrite lifetime_unfold by lra.
  replace (1 - 0 / 100) with 1 by lra.
  unfold pow, Rpower. rewrite ln_1, Rmult_0_r, exp_0.
  replace ((1 - 1) * 100) with 0 by lra.
  unfold min. rewrite Rmin_left by lra. apply round_0.
Qed.

(** ** Profiles within the ranges of the form *)

Lemma ln_1p_le (x : R) : -1 < x -> ln (x + 1) <= x.
Proof.
  intros Hx. pose proof (exp_ineq1_le x) as He.
  destruct He as [He | He].
  - left. rewrite <- (ln_exp x) at 2. apply ln_increasing; lra.
  - rewrite Rplus_comm, He. rewrite ln_exp. apply Rle_refl.
Qed.

Lemma ln_1p_ge_0 (x : R) : 0 <= x -> 0 <= ln (x + 1).
Proof.
  intros [Hx | Hx].
  - left. rewrite <- ln_1. apply ln_increasing; lra.
  - subst x. rewrite Rplus_0_l, ln_1. apply Rle_refl.
Qed.

Lemma in_range_vasc (s : Session.state) : (0 <= Session.vasc s <= 3)%Z.
Proof.
  unfold Session.vasc.
  destruct (negb _), (Session.pre_ez s), (Session.pre_bemp s); simpl; lia.
Qed.

Lemma in_range_lp (s : Session.state) :
  Session.in_range s -> session_lp s <= 19.325.
Proof.
  intros [Hage _ Hegfr Htc Hhdl _ Hcrp _ _ Hsbp].
  pose proof (in_range_vasc s) as Hv.
  assert (Hl : ln (Session.crp s + 1) <= 20.0)
    by (apply Rle_trans with (Session.crp s); [apply ln_1p_le |]; lra).
  destruct Hage as [_ Hage]. apply IZR_le in Hage.
  destruct Hegfr as [Hegfr _]. apply IZR_le in Hegfr.
  destruct Hsbp as [_ Hsbp]. apply IZR_le in Hsbp.
  destruct Hv as [_ Hv]. apply IZR_le in Hv.
  unfold session_lp, lp_of, linear_predictor.
  destruct (String.eqb _ _), (Session.smoker s), (Session.diabetes s); lra.
Qed.

(** Within the ranges of the form the estimator returns a value. *)
Lemma in_range_ten_year (s : Session.state) :
  Session.in_range s ->
  Session.ten_year s =
  Ok (round (min ((1 - pow 0.900 (exp (session_lp s - 5.8))) * 100) 95.0) 1).
Proof.
  intros Hs. pose proof (in_range_lp s Hs) as Hlp.
  unfold Session.ten_year, session_lp in *.
  apply estimate_value.
  - destruct Hs as [_ _ _ _ _ _ Hcrp _ _ _]. lra.
  - unfold exp_max_arg. lra.
Qed.

(** ** Inputs at which the cap of 95.0 is reached *)

Lemma exp_ge_32 (x : R) : 5 <= x -> 32 <= exp x.
Proof.
  intros Hx. apply Rle_trans with (exp 5); [| now apply exp_le].
  replace 5 with (INR 5) by (simpl; lra). rewrite exp_nat.
  apply Rle_trans with (2 ^ 5); [simpl; lra |].
  apply pow_incr. pose proof exp_1_ge_2. lra.
Qed.

Lemma pow_09_small (e : R) : 32 <= e -> pow 0.900 e <= 0.05.
Proof.
  intros He. apply Rle_trans with (pow 0.900 32).
  - apply pow_antitone; lra.
  - replace 32 with (INR 32) by (simpl; lra).
    rewrite pow_nat by lra. simpl. lra.
Qed.

Lemma estimate_capped
    (age : R) (sex : string) (sbp tc hdl : R) (smoker diabetes : bool)
    (egfr crp vasc : R) :
  -1 < crp ->
  5 <= lp_of age sex sbp tc hdl smoker diabetes egfr crp vasc - 5.8
    <= exp_max_arg ->
  estimate_10y_risk age sex sbp tc hdl smoker diabetes egfr crp vasc = Ok 95.0.
Proof.
  intros Hc [Hlo Hhi]. rewrite estimate_value by assumption. f_equal.
  pose proof (pow_09_small _ (exp_ge_32 _ Hlo)) as Hp.
  unfold min. rewrite Rmin_right by lra. apply round_95.
Qed.

(** ** The LDL projection *)

Section Projection.

(** Each loop iteration multiplies the running value by a factor in
    (0, 1]. *)
Lemma ldl_step_factor (drug : string) :
  exists c : R, 0 < c <= 1 /\ forall ldl : R, ldl_step ldl drug = ldl * c.
Proof.
  unfold ldl_step, E, dict_get.
  repeat (destruct (String.eqb drug _);
          [eexists; split; [| intros ldl; reflexivity]; lra |]).
  exists 1. split; [lra | intros ldl; lra].
Qed.

Lemma ldl_step_absent (ldl : R) (drug : string) :
  in_E drug = false -> ldl_step ldl drug = ldl.
Proof.
  unfold in_E, ldl_step. destruct (dict_get E drug); [discriminate | reflexivity].
Qed.

Lemma ldl_loop_bounds (drugs : list string) (ldl : R) :
  0 <= ldl -> 0 <= fold_left ldl_step drugs ldl <= ldl.
Proof.
  revert ldl. induction drugs as [| d drugs IH]; intros ldl Hl; simpl.
  - lra.
  - destruct (ldl_step_factor d) as (c & Hc & Hstep).
    rewrite Hstep.
    assert (H0 : 0 <= ldl * c) by nra.
    specialize (IH _ H0). nra.
Qed.

(** Identifiers absent from [E] can be dropped from the list. *)
Lemma ldl_loop_filter (drugs : list string) (ldl : R) :
  fold_left ldl_step drugs ldl = fold_left ldl_step (filter in_E drugs) ldl.
Proof.
  revert ldl. induction drugs as [| d drugs IH]; intros ldl; simpl.
  - reflexivity.
  - destruct (in_E d) eqn:Hd; simpl.
    + apply IH.
    + rewrite (ldl_step_absent _ _ Hd). apply IH.
Qed.

End Projection.

(** ** The derived metrics of the Results step *)

Section Derived.

Lemma high_risk_in_range (a : Z) :
  (30 <= a <= 90)%Z -> Session.in_range (high_risk a).
Proof.
  intros Ha. constructor; simpl; try lia; try lra; auto.
Qed.

Lemma defaults_in_range : Session.in_range Session.defaults.
Proof. constructor; simpl; try lia; try lra; auto. Qed.

(** From age 54 on the [high_risk] session reaches the cap. *)
Lemma high_risk_ten_year (a : Z) :
  (54 <= a <= 90)%Z -> Session.ten_year (high_risk a) = Ok 95.0.
Proof.
  intros Ha.
  assert (Hr : Session.in_range (high_risk a))
    by (apply high_risk_in_range; lia).
  pose proof (in_range_lp _ Hr) as Hup.
  unfold Session.ten_year. apply estimate_capped; [simpl; lra |].
  fold (session_lp (high_risk a)). split; [| unfold exp_max_arg; lra].
  pose proof (ln_1p_ge_0 20.0 ltac:(lra)) as Hln.
  destruct Ha as [Ha _]. apply IZR_le in Ha.
  unfold session_lp, lp_of, linear_predictor. simpl.
  change (Session.vasc (high_risk a)) with 0%Z. lra.
Qed.

Variables (age : Z) (r : R).

Let rlt := estimate_lifetime_risk (IZR age) r.
Let arr := Session.arr10_of age r rlt.

Lemma arr10_of_none : arr = None <-> (85 <= age)%Z.
Proof.
  unfold arr, Session.arr10_of.
  destruct (Z.ltb_spec age 85); split; intros; try discriminate; try lia;
    reflexivity.
Qed.

(** The division of [rrr10] is never by zero, and its value is as
    follows. *)
Lemma rrr10_of_outcome :
  exists rrr : option R,
    Session.rrr10_of arr r = Ok rrr /\
    (rrr = None <-> arr = None \/ arr = Some 0) /\
    (forall a : R, arr = Some a -> a <> 0 ->
                   r <> 0 /\ rrr = Some (round (a / r * 100) 1)).
Proof.
  unfold arr, Session.arr10_of.
  destruct (age <? 85)%Z.
  - unfold Session.rrr10_of, truthy.
    destruct (Req_dec_T (r - rlt) 0) as [Hz | Hz].
    + exists None. split; [reflexivity |]. split.
      * split; [intros _; right; now rewrite Hz | reflexivity].
      * intros a [= <-] Ha. contradiction.
    + assert (Hr : r <> 0).
      { intros ->. apply Hz. unfold rlt.
        rewrite lifetime_of_zero_risk. lra. }
      unfold truediv. destruct (Req_dec_T r 0) as [H0 | _]; [contradiction |].
      cbn [bind]. eexists. split; [reflexivity |]. split.
      * split; [discriminate |].
        intros [H | [= H]]; [discriminate | contradiction].
      * intros a [= <-] _. split; [exact Hr | reflexivity].
  - exists None. split; [reflexivity |]. split.
    + split; [intros _; now left | reflexivity].
    + intros a H. discriminate.
Qed.

End Derived.

(** The Results step returns whenever the ten-year estimator does. *)
Lemma results_step_returns (s : Session.state) (r : R) :
  Session.ten_year s = Ok r ->
  exists rrr : option R,
    Session.rrr10_of
      (Session.arr10_of (Session.age s) r
         (estimate_lifetime_risk (IZR (Session.age s)) r)) r = Ok rrr /\
    Session.results_step s =
    Ok {| Session.r5 := convert_5yr r;
          Session.r10 := r;
          Session.rlt := estimate_lifetime_risk (IZR (Session.age s)) r;
          Session.lifetime :=
            Session.lifetime_of (Session.age s)
              (estimate_lifetime_risk (IZR (Session.age s)) r);
          Session.chart_y :=
            [Some (convert_5yr r); Some r;
             if (Session.age s <? 85)%Z
             then Some (estimate_lifetime_risk (IZR (Session.age s)) r)
             else None];
          Session.arr10 :=
            Session.arr10_of (Session.age s) r
              (estimate_lifetime_risk (IZR (Session.age s)) r);
          Session.rrr10 := rrr |}.
Proof.
  intros Hr.
  destruct (rrr10_of_outcome (Session.age s) r) as (rrr & Hrrr & _).
  exists rrr. split; [exact Hrrr |].
  unfold Session.results_step. rewrite Hr. cbn [bind].
  rewrite Hrrr. reflexivity.
Qed.

(** ** Concrete evaluations *)

(** From age 76 on the horizon is shorter than ten years: from the capped
    ten-year risk the function returns at most 93.5. *)
Lemma lifetime_short_horizon (age : R) :
  76 <= age -> estimate_lifetime_risk age 95.0 <= 93.5.
Proof.
  intros Hage. rewrite lifetime_unfold by lra.
  pose proof (years_nonneg age) as Hy0.
  assert (Hy : max (85 - age) 0 <= 9) by (unfold max; apply Rmax_lub; lra).
  set (years := max (85 - age) 0) in *.
  assert (H : 0.065 <= pow (1 - 95.0 / 100) (years / 10)).
  { apply Rle_trans with (pow (1 - 95.0 / 100) (9 / 10));
      [| apply pow_antitone; lra].
    apply Rle_trans with (pow (pow 0.065 (INR 10)) (1 / 10)).
    - rewrite pow_pow. replace (INR 10 * (1 / 10)) with 1 by (simpl; lra).
      rewrite pow_1_r by lra. apply Rle_refl.
    - replace (9 / 10) with (INR 9 * (1 / 10)) by (simpl; lra).
      rewrite <- pow_pow. apply pow_monotone_l; [lra |].
      rewrite !pow_nat by lra. simpl. lra. }
  apply Rle_trans with (round 93.5 1).
  - apply round_le. unfold min, Rmin. destruct (Rle_dec _ _); lra.
  - replace 93.5 with (IZR 935 / 10) by lra. rewrite round_tenth. lra.
Qed.

(** A lower bound on [lp] for an adult without smoking, diabetes or prior
    therapy, normal laboratory values and a given age and blood pressure. *)
Lemma lp_plain_lower (age : R) (sex : string) (sbp : R) :
  0.064 * age + 0.02 * sbp - 0.825 <=
  lp_of age sex sbp 5.2 1.3 false false 90 2.5 0.
Proof.
  pose proof (ln_1p_ge_0 2.5 ltac:(lra)) as Hln.
  unfold lp_of, linear_predictor. destruct (String.eqb sex "Male"); lra.
Qed.

(** * The claims *)

(** C7. For every baseline LDL > 0 and every pair of therapy lists (empty
    ones and unrecognized identifiers included), the projected LDL returned
    by [calculate_ldl_projection] is at least 0.5. *)
Theorem C7_projection_floor (baseline_ldl : R) (pre_list new_list : list string) :
  0 < baseline_ldl ->
  0.5 <= calculate_ldl_projection baseline_ldl pre_list new_list.
Proof.
  intros _. unfold calculate_ldl_projection, max. apply Rmax_r.
Qed.

Lemma C7_projection_floor_witness :
  0 < 0.1 /\
  0.5 <= calculate_ldl_projection 0.1 ["None"%string; "Zzz"%string]
                                      ["PCSK9 inhibitor"%string].
Proof.
  split; [lra | apply C7_projection_floor; lra].
Defined.

(** C8. Identifiers absent from the reduction-factor table, such as "None",
    are neutral in the LDL projection: dropping them from either list leaves
    the result unchanged; in particular
    [calculate_ldl_projection 3.0 ["None"] ["Atorvastatin 80 mg"]] equals
    [calculate_ldl_projection 3.0 [] ["Atorvastatin 80 mg"]], and both equal
    3.0 * 0.5 = 1.5. *)
Theorem C8_absent_identifiers_neutral :
  (forall (baseline_ldl : R) (pre_list new_list : list string),
      calculate_ldl_projection baseline_ldl pre_list new_list =
      calculate_ldl_projection baseline_ldl
        (filter in_E pre_list) (filter in_E new_list)) /\
  in_E "None" = false /\
  calculate_ldl_projection 3.0 ["None"%string] ["Atorvastatin 80 mg"%string] =
  calculate_ldl_projection 3.0 [] ["Atorvastatin 80 mg"%string] /\
  calculate_ldl_projection 3.0 [] ["Atorvastatin 80 mg"%string] = 3.0 * 0.5 /\
  3.0 * 0.5 = 1.5.
Proof.
  repeat split.
  - intros b pre new. unfold calculate_ldl_projection.
    rewrite ldl_loop_filter, filter_app. reflexivity.
  - unfold calculate_ldl_projection. simpl. unfold ldl_step. simpl.
    unfold max. rewrite Rmax_left by lra. lra.
  - lra.
Qed.

(** C10. For every baseline LDL of at least 0.5 and every pair of therapy
    lists, the projected LDL is at most the baseline; below 0.5 the floor can
    raise the result above the baseline. *)
Theorem C10_projection_never_increases :
  (forall (baseline_ldl : R) (pre_list new_list : list string),
      0.5 <= baseline_ldl ->
      calculate_ldl_projection baseline_ldl pre_list new_list <= baseline_ldl) /\
  (exists (baseline_ldl : R) (pre_list new_list : list string),
      0 < baseline_ldl < 0.5 /\
      baseline_ldl < calculate_ldl_projection baseline_ldl pre_list new_list).
Proof.
  split.
  - intros b pre new Hb. unfold calculate_ldl_projection, max.
    assert (H0 : 0 <= b) by lra.
    pose proof (ldl_loop_bounds (pre ++ new) b H0) as [_ Hle].
    apply Rmax_lub; lra.
  - exists 0.3, [], []. split; [lra |].
    unfold calculate_ldl_projection, max. simpl.
    rewrite Rmax_right by lra. lra.
Qed.

Lemma C10_projection_never_increases_witness :
  0.5 <= 3.0 /\
  calculate_ldl_projection 3.0 ["Atorvastatin 80 mg"%string]
                               ["Ezetimibe 10 mg"%string] <= 3.0.
Proof.
  split; [lra | apply (proj1 C10_projection_never_increases); lra].
Defined.

(** C1, as amended.  For every age of 85 or more [estimate_lifetime_risk]
    returns the number 0.0, whatever the ten-year risk: the horizon
    [max(85 - age, 0)] is empty.  The "not applicable" value is produced by
    the caller: in the Results step, for an age of 85 or more, the lifetime
    text is "N/A", the lifetime bar of the chart is [None], and ARR and RRR
    are [None]. *)
Theorem C1_lifetime_from_85 :
  (forall age r10 : R, 85 <= age -> estimate_lifetime_risk age r10 = 0) /\
  (forall (s : Session.state) (r : R),
      (85 <= Session.age s)%Z -> Session.ten_year s = Ok r ->
      exists res : Session.results,
        Session.results_step s = Ok res /\
        Session.rlt res = 0 /\
        Session.lifetime res = NA /\
        Session.chart_y res = [Some (Session.r5 res); Some r; None] /\
        Session.arr10 res = None /\
        Session.rrr10 res = None).
Proof.
  split; [exact lifetime_from_85 |].
  intros s r Hage Hr.
  destruct (results_step_returns s r Hr) as (rrr & Hrrr & Hres).
  assert (Hlt : (Session.age s <? 85)%Z = false) by (apply Z.ltb_ge; lia).
  assert (Hle : (85 <=? Session.age s)%Z = true) by (apply Z.leb_le; lia).
  unfold Session.arr10_of in Hrrr, Hres. rewrite Hlt in Hrrr, Hres.
  cbn in Hrrr. injection Hrrr as <-.
  eexists. split; [exact Hres |]. cbn.
  unfold Session.lifetime_of. rewrite Hle.
  repeat split. apply lifetime_from_85. apply IZR_le in Hage. lra.
Qed.

Lemma C1_lifetime_from_85_witness :
  estimate_lifetime_risk 90 50 = 0 /\
  exists res : Session.results,
    Session.results_step (high_risk 90) = Ok res /\
    Session.rlt res = 0 /\
    Session.lifetime res = NA /\
    Session.chart_y res = [Some (Session.r5 res); Some 95.0; None] /\
    Session.arr10 res = None /\
    Session.rrr10 res = None.
Proof.
  split.
  - apply (proj1 C1_lifetime_from_85). lra.
  - apply (proj2 C1_lifetime_from_85 (high_risk 90) 95.0).
    + simpl. lia.
    + apply high_risk_ten_year. lia.
Defined.

(** C1 as stated fails: at age 90 and a ten-year risk of 50.0 the function
    returns the number 0.0 where the specification's operation is "not
    applicable". *)
Lemma C1_counterexample :
  85 <= 90 /\
  estimate_lifetime_risk 90 50 = 0 /\
  Spec.estimateLifetimeRisk 90 50 = None /\
  Some (estimate_lifetime_risk 90 50) <> Spec.estimateLifetimeRisk 90 50.
Proof.
  assert (Hs : Spec.estimateLifetimeRisk 90 50 = None).
  { unfold Spec.estimateLifetimeRisk.
    destruct (Rle_dec 85 90) as [_ | Hn]; [reflexivity | lra]. }
  repeat split; [lra | apply lifetime_from_85; lra | exact Hs |].
  rewrite Hs. discriminate.
Qed.

(** C2, as amended.  For every age of 75 or less (a horizon of at least ten
    years) and every ten-year risk produced by [estimate_10y_risk], the
    lifetime risk returned by [estimate_lifetime_risk] is at least that
    ten-year risk. *)
Theorem C2_lifetime_ge_ten_year
    (age : R) (sex : string) (sbp tc hdl : R) (smoker diabetes : bool)
    (egfr crp vasc : R) (r10 : R) :
  age <= 75 ->
  estimate_10y_risk age sex sbp tc hdl smoker diabetes egfr crp vasc = Ok r10 ->
  r10 <= estimate_lifetime_risk age r10.
Proof.
  intros Hage Hr.
  destruct (estimate_returns_percentage _ _ _ _ _ _ _ _ _ _ _ Hr)
    as (Hrange & k & Hk).
  now apply lifetime_ge_ten_year with k.
Qed.

Lemma C2_lifetime_ge_ten_year_witness :
  95.0 <= estimate_lifetime_risk 75 95.0.
Proof.
  apply (C2_lifetime_ge_ten_year 75 "Male" 200 10.0 0.5 true true 15 20.0 0).
  - lra.
  - exact (high_risk_ten_year 75 ltac:(lia)).
Defined.

(** C2 as stated fails: at age 84 the estimator produces 95.0 for a
    high-risk profile and the lifetime risk computed from it is at most
    93.5. *)
Lemma C2_counterexample :
  84 < 85 /\
  estimate_10y_risk 84 "Male" 200 10.0 0.5 true true 15 20.0 0 = Ok 95.0 /\
  estimate_lifetime_risk 84 95.0 < 95.0.
Proof.
  repeat split.
  - lra.
  - exact (high_risk_ten_year 84 ltac:(lia)).
  - pose proof (lifetime_short_horizon 84 ltac:(lra)). lra.
Qed.

(** C3, at the failing input.  For the high-risk session at age 75, which
    is within the ranges of the form, the ten-year risk is 95.0 and the
    lifetime risk is 95.0, so ARR is defined and equal to zero; the guard
    [if arr10] takes that zero for a missing value and RRR is [None], where
    the claim gives round(0 / 95.0 * 100, 1). *)
Theorem C3_rrr_missing_at_zero_arr :
  Session.in_range (high_risk 75) /\
  exists res : Session.results,
    Session.results_step (high_risk 75) = Ok res /\
    Session.r10 res = 95.0 /\ Session.r10 res <> 0 /\
    Session.arr10 res = Some 0 /\ Session.arr10 res <> None /\
    Session.rrr10 res = None /\
    Session.rrr10 res <> Some (round (0 / 95.0 * 100) 1).
Proof.
  split; [apply high_risk_in_range; lia |].
  pose proof (high_risk_ten_year 75 ltac:(lia)) as Hr.
  destruct (results_step_returns _ _ Hr) as (rrr & Hrrr & Hres).
  destruct (rrr10_of_outcome 75 95.0) as (rrr' & Hrrr' & Hiff & _).
  change (Session.age (high_risk 75)) with 75%Z in Hrrr, Hres.
  rewrite Hrrr in Hrrr'. injection Hrrr' as <-.
  assert (Hlt : estimate_lifetime_risk 75 95.0 = 95.0).
  { apply lifetime_at_75 with 950%Z; lra. }
  assert (Harr : Session.arr10_of 75 95.0 (estimate_lifetime_risk 75 95.0)
                 = Some 0).
  { unfold Session.arr10_of. simpl. f_equal. rewrite Hlt. lra. }
  assert (Hnone : rrr = None) by (apply Hiff; now right).
  eexists. split; [exact Hres |].
  cbn [Session.r10 Session.arr10 Session.rrr10].
  split; [reflexivity |]. split; [lra |].
  split; [exact Harr |]. split; [rewrite Harr; discriminate |].
  split; [exact Hnone | rewrite Hnone; discriminate].
Qed.

(** C5. For every profile within the ranges of the form, the ten-year
    estimator returns a value, and that value, the five-year risk
    [convert_5yr] and the lifetime risk [estimate_lifetime_risk] computed
    from it all lie in the closed interval [0, 95.0]. *)
Theorem C5_risks_within_0_95 (s : Session.state) :
  Session.in_range s ->
  exists r10 : R,
    Session.ten_year s = Ok r10 /\
    0 <= r10 <= 95.0 /\
    0 <= convert_5yr r10 <= 95.0 /\
    0 <= estimate_lifetime_risk (IZR (Session.age s)) r10 <= 95.0.
Proof.
  intros Hs. pose proof (in_range_ten_year s Hs) as Hr.
  eexists. split; [exact Hr |].
  destruct (estimate_returns_percentage _ _ _ _ _ _ _ _ _ _ _ Hr) as [Hrange _].
  split; [exact Hrange |].
  split; [now apply convert_5yr_range | now apply estimate_lifetime_risk_range].
Qed.

Lemma C5_risks_within_0_95_witness :
  exists r10 : R,
    Session.ten_year Session.defaults = Ok r10 /\
    0 <= r10 <= 95.0 /\
    0 <= convert_5yr r10 <= 95.0 /\
    0 <= estimate_lifetime_risk 60 r10 <= 95.0.
Proof.
  apply (C5_risks_within_0_95 Session.defaults).
  exact defaults_in_range.
Defined.

(** C6. For every ten-year risk r10 produced by [estimate_10y_risk], the
    five-year risk [convert_5yr r10] is at most r10. *)
Theorem C6_five_year_le_ten_year
    (age : R) (sex : string) (sbp tc hdl : R) (smoker diabetes : bool)
    (egfr crp vasc : R) (r10 : R) :
  estimate_10y_risk age sex sbp tc hdl smoker diabetes egfr crp vasc = Ok r10 ->
  convert_5yr r10 <= r10.
Proof.
  intros Hr.
  destruct (estimate_returns_percentage _ _ _ _ _ _ _ _ _ _ _ Hr)
    as (Hrange & k & Hk).
  now apply convert_5yr_le with k.
Qed.

Lemma C6_five_year_le_ten_year_witness :
  convert_5yr 95.0 <= 95.0.
Proof.
  apply (C6_five_year_le_ten_year 60 "Male" 200 10.0 0.5 true true 15 20.0 0).
  exact (high_risk_ten_year 60 ltac:(lia)).
Defined.

(** C9, as amended.  [estimate_10y_risk] fails with a domain error if and
    only if crp <= -1.  For crp > -1 it either returns a value or fails with
    the range error of [math.exp], and nothing else; for every profile
    within the ranges of the form it returns a value. *)
Theorem C9_failure_modes :
  (forall (age : R) (sex : string) (sbp tc hdl : R) (smoker diabetes : bool)
          (egfr crp vasc : R),
      let run :=
        estimate_10y_risk age sex sbp tc hdl smoker diabetes egfr crp vasc in
      (run = Raise ValueError <-> crp <= -1) /\
      (-1 < crp -> run = Raise OverflowError \/ exists r : R, run = Ok r)) /\
  (forall s : Session.state,
      Session.in_range s -> exists r : R, Session.ten_year s = Ok r).
Proof.
  split.
  - intros age sex sbp tc hdl smoker diabetes egfr crp vasc run.
    pose proof (estimate_domain_error age sex sbp tc hdl smoker diabetes egfr
                  crp vasc) as HA.
    pose proof (estimate_range_error age sex sbp tc hdl smoker diabetes egfr
                  crp vasc) as HB.
    pose proof (estimate_value age sex sbp tc hdl smoker diabetes egfr
                  crp vasc) as HC.
    subst run.
    assert (Hcases :
              -1 < crp ->
              estimate_10y_risk age sex sbp tc hdl smoker diabetes egfr crp vasc
                = Raise OverflowError \/
              exists r : R,
                estimate_10y_risk age sex sbp tc hdl smoker diabetes egfr crp
                  vasc = Ok r).
    { intros Hc.
      destruct (Rlt_dec exp_max_arg
                  (lp_of age sex sbp tc hdl smoker diabetes egfr crp vasc - 5.8))
        as [Hlp | Hlp].
      - left. now apply HB.
      - right. apply Rnot_lt_le in Hlp. eexists. now apply HC. }
    split; [| exact Hcases].
    split; [| exact HA]. intros H.
    destruct (Rle_dec crp (-1)) as [Hc | Hc]; [exact Hc |].
    apply Rnot_le_lt in Hc.
    destruct (Hcases Hc) as [H' | [r H']]; rewrite H' in H; discriminate.
  - intros s Hs. eexists. now apply in_range_ten_year.
Qed.

Lemma C9_failure_modes_witness :
  exists r : R, Session.ten_year Session.defaults = Ok r.
Proof.
  apply (proj2 C9_failure_modes Session.defaults).
  exact defaults_in_range.
Defined.

(** C9 as stated fails: with crp = 2.5 > -1 and a systolic pressure of
    40000 the function does not return: [math.exp] raises a range error. *)
Lemma C9_counterexample :
  -1 < 2.5 /\
  estimate_10y_risk 60 "Female" 40000 5.2 1.3 false false 90 2.5 0 =
  Raise OverflowError /\
  ~ (exists r : R,
        estimate_10y_risk 60 "Female" 40000 5.2 1.3 false false 90 2.5 0 = Ok r).
Proof.
  assert (H : estimate_10y_risk 60 "Female" 40000 5.2 1.3 false false 90 2.5 0
              = Raise OverflowError).
  { apply estimate_range_error; [lra |].
    pose proof (lp_plain_lower 60 "Female" 40000). unfold exp_max_arg. lra. }
  repeat split; [lra | exact H |].
  intros [r Hr]. rewrite H in Hr. discriminate.
Qed.

(** * Further properties of the code *)

(** ** Helper lemmas *)

Lemma ldl_loop_scale (drugs : list string) (ldl : R) :
  fold_left ldl_step drugs ldl = ldl * ldl_factor drugs.
Proof.
  unfold ldl_factor. revert ldl.
  induction drugs as [| d drugs IH]; intros ldl; simpl.
  - lra.
  - destruct (ldl_step_factor d) as (c & _ & Hstep).
    rewrite (Hstep ldl), (Hstep 1), (IH (ldl * c)), (IH (1 * c)). ring.
Qed.

Lemma ldl_factor_cons (d : string) (drugs : list string) :
  ldl_factor (d :: drugs) = ldl_step 1 d * ldl_factor drugs.
Proof. unfold ldl_factor at 1. simpl. apply ldl_loop_scale. Qed.

Lemma ldl_factor_app (l1 l2 : list string) :
  ldl_factor (l1 ++ l2) = ldl_factor l1 * ldl_factor l2.
Proof.
  unfold ldl_factor at 1. rewrite fold_left_app.
  fold (ldl_factor l1). apply ldl_loop_scale.
Qed.

Lemma ldl_factor_range (drugs : list string) : 0 <= ldl_factor drugs <= 1.
Proof. unfold ldl_factor. apply ldl_loop_bounds. lra. Qed.

Lemma projection_scale (b : R) (pre new : list string) :
  calculate_ldl_projection b pre new = max (b * ldl_factor (pre ++ new)) 0.5.
Proof. unfold calculate_ldl_projection. now rewrite ldl_loop_scale. Qed.

Lemma ln_le (x y : R) : 0 < x -> x <= y -> ln x <= ln y.
Proof.
  intros Hx [H | H]; [left; now apply ln_increasing | subst; apply Rle_refl].
Qed.

Lemma min_le_compat (x y c : R) : x <= y -> min x c <= min y c.
Proof. intros H. unfold min. now apply Rle_min_compat_r. Qed.

(** Rounding of a number that is closer to [k] tenths than to any other. *)
Lemma round_nearest (k : Z) (x : R) :
  IZR k - 1 / 2 < x * 10 < IZR k + 1 / 2 -> round x 1 = IZR k / 10.
Proof.
  intros [Hlo Hhi]. rewrite round_1. f_equal. f_equal.
  pose proof (round_half_even_near (x * 10)) as [Ha Hb].
  destruct (Z.lt_total (round_half_even (x * 10)) k) as [H | [H | H]].
  - assert (Hz : (round_half_even (x * 10) + 1 <= k)%Z) by lia.
    apply IZR_le in Hz. rewrite plus_IZR in Hz. lra.
  - exact H.
  - assert (Hz : (k + 1 <= round_half_even (x * 10))%Z) by lia.
    apply IZR_le in Hz. rewrite plus_IZR in Hz. lra.
Qed.

(** The ten-year risk grows with the linear predictor. *)
Lemma estimate_monotone_lp
    (age : R) (sex : string) (sbp tc hdl : R) (smoker diabetes : bool)
    (egfr crp vasc : R)
    (age' : R) (sex' : string) (sbp' tc' hdl' : R) (smoker' diabetes' : bool)
    (egfr' crp' vasc' : R) (r r' : R) :
  estimate_10y_risk age sex sbp tc hdl smoker diabetes egfr crp vasc = Ok r ->
  estimate_10y_risk age' sex' sbp' tc' hdl' smoker' diabetes' egfr' crp' vasc'
    = Ok r' ->
  lp_of age sex sbp tc hdl smoker diabetes egfr crp vasc <=
  lp_of age' sex' sbp' tc' hdl' smoker' diabetes' egfr' crp' vasc' ->
  r <= r'.
Proof.
  intros H H' Hlp.
  apply estimate_returns_inv in H as (_ & _ & ->).
  apply estimate_returns_inv in H' as (_ & _ & ->).
  apply round_le, min_le_compat.
  assert (He : pow 0.900 (exp (lp_of age' sex' sbp' tc' hdl' smoker' diabetes'
                                  egfr' crp' vasc' - 5.8))
               <= pow 0.900 (exp (lp_of age sex sbp tc hdl smoker diabetes
                                    egfr crp vasc - 5.8))).
  { apply pow_antitone; [lra | apply exp_le; lra]. }
  lra.
Qed.

(** The general form of [estimate_lifetime_risk], for any argument. *)
Lemma lifetime_form (age r10 : R) :
  estimate_lifetime_risk age r10 =
  round (min ((1 - pow (1 - min r10 95.0 / 100) (max (85 - age) 0 / 10)) * 100)
             95.0) 1.
Proof.
  unfold estimate_lifetime_risk.
  replace (1 - (1 - pow (1 - min r10 95.0 / 100) (1 / 10)))
    with (pow (1 - min r10 95.0 / 100) (1 / 10)) by lra.
  rewrite pow_pow. do 5 f_equal. lra.
Qed.


Lemma lifetime_antitone_age (age age' r : R) :
  0 <= r -> age' <= age ->
  estimate_lifetime_risk age r <= estimate_lifetime_risk age' r.
Proof.
  intros Hr Hage. rewrite !lifetime_form. apply round_le, min_le_compat.
  pose proof (survival_base_positive r) as Hb.
  assert (Hm : 0 <= min r 95.0) by (unfold min; apply Rmin_glb; lra).
  assert (Hy : max (85 - age) 0 <= max (85 - age') 0).
  { unfold max. apply Rmax_lub; [| apply Rmax_r].
    apply Rle_trans with (85 - age'); [lra | apply Rmax_l]. }
  assert (H : pow (1 - min r 95.0 / 100) (max (85 - age') 0 / 10)
              <= pow (1 - min r 95.0 / 100) (max (85 - age) 0 / 10))
    by (apply pow_antitone; lra).
  lra.
Qed.

Lemma lifetime_80 (r : R) : estimate_lifetime_risk 80 r = convert_5yr r.
Proof.
  rewrite lifetime_form. unfold convert_5yr, max.
  rewrite Rmax_left by lra. do 5 f_equal. lra.
Qed.

(** ** The LDL projection *)

(** X2. For the same therapies, a higher baseline LDL never gives a lower
    projected LDL. *)
Theorem X2_projection_monotone_baseline
    (b b' : R) (pre new : list string) :
  b <= b' ->
  calculate_ldl_projection b pre new <= calculate_ldl_projection b' pre new.
Proof.
  intros Hb. rewrite !projection_scale. unfold max.
  apply Rle_max_compat_r.
  pose proof (ldl_factor_range (pre ++ new)). nra.
Qed.

Lemma X2_projection_monotone_baseline_witness :
  calculate_ldl_projection 2.0 ["Atorvastatin 80 mg"%string] [] <=
  calculate_ldl_projection 4.5 ["Atorvastatin 80 mg"%string] [].
Proof. apply X2_projection_monotone_baseline. lra. Defined.

(** X3. For a baseline that is not negative, adding identifiers to the new
    list never raises the projected LDL. *)
Theorem X3_projection_more_therapy
    (b : R) (pre new extra : list string) :
  0 <= b ->
  calculate_ldl_projection b pre (new ++ extra) <=
  calculate_ldl_projection b pre new.
Proof.
  intros Hb. rewrite !projection_scale, app_assoc, ldl_factor_app.
  unfold max. apply Rle_max_compat_r.
  pose proof (ldl_factor_range (pre ++ new)) as H1.
  pose proof (ldl_factor_range extra) as H2.
  rewrite <- Rmult_assoc.
  assert (H0 : 0 <= b * ldl_factor (pre ++ new)) by nra.
  nra.
Qed.

Lemma X3_projection_more_therapy_witness :
  calculate_ldl_projection 3.0 [] (["Atorvastatin 80 mg"%string]
                                   ++ ["Ezetimibe 10 mg"%string]) <=
  calculate_ldl_projection 3.0 [] ["Atorvastatin 80 mg"%string].
Proof. apply X3_projection_more_therapy. lra. Defined.

(** X4. A baseline at or below the floor, zero and negative values included,
    is projected to exactly 0.5, whatever the therapies. *)
Theorem X4_projection_at_floor (b : R) (pre new : list string) :
  b <= 0.5 -> calculate_ldl_projection b pre new = 0.5.
Proof.
  intros Hb. rewrite projection_scale. unfold max. apply Rmax_right.
  pose proof (ldl_factor_range (pre ++ new)). nra.
Qed.

Lemma X4_projection_at_floor_witness :
  calculate_ldl_projection (-2) ["PCSK9 inhibitor"%string] [] = 0.5.
Proof. apply X4_projection_at_floor. lra. Defined.

(** ** The ten-year estimator *)

(** X5. Whenever both calls return, the ten-year risk does not decrease when
    age, systolic pressure, total cholesterol, CRP or the count [vasc] go up,
    HDL or eGFR go down, smoking or diabetes are switched on, or the sex
    becomes "Male". *)
Theorem X5_risk_monotone
    (age : R) (sex : string) (sbp tc hdl : R) (smoker diabetes : bool)
    (egfr crp vasc : R)
    (age' : R) (sex' : string) (sbp' tc' hdl' : R) (smoker' diabetes' : bool)
    (egfr' crp' vasc' : R) (r r' : R) :
  age <= age' -> sbp <= sbp' -> tc <= tc' -> hdl' <= hdl -> egfr' <= egfr ->
  crp <= crp' -> vasc <= vasc' ->
  (smoker = true -> smoker' = true) ->
  (diabetes = true -> diabetes' = true) ->
  (String.eqb sex "Male" = true -> String.eqb sex' "Male" = true) ->
  estimate_10y_risk age sex sbp tc hdl smoker diabetes egfr crp vasc = Ok r ->
  estimate_10y_risk age' sex' sbp' tc' hdl' smoker' diabetes' egfr' crp' vasc'
    = Ok r' ->
  r <= r'.
Proof.
  intros Hage Hsbp Htc Hhdl Hegfr Hcrp Hvasc Hsm Hdm Hsex Hr Hr'.
  apply (estimate_monotone_lp _ _ _ _ _ _ _ _ _ _ _ _ _ _ _ _ _ _ _ _ _ _
           Hr Hr').
  apply estimate_returns_inv in Hr as (Hc & _ & _).
  assert (Hln : ln (crp + 1) <= ln (crp' + 1)) by (apply ln_le; lra).
  unfold lp_of, linear_predictor.
  assert (Hs : (if String.eqb sex "Male" then 1 else 0)
               <= (if String.eqb sex' "Male" then 1 else 0)).
  { destruct (String.eqb sex "Male");
      [rewrite (Hsex eq_refl) | destruct (String.eqb sex' "Male")]; lra. }
  assert (Hm : (if smoker then 1 else 0) <= (if smoker' then 1 else 0)).
  { destruct smoker; [rewrite (Hsm eq_refl) | destruct smoker']; lra. }
  assert (Hd : (if diabetes then 1 else 0) <= (if diabetes' then 1 else 0)).
  { destruct diabetes; [rewrite (Hdm eq_refl) | destruct diabetes']; lra. }
  lra.
Qed.

Lemma X5_risk_monotone_witness : 95.0 <= 95.0.
Proof.
  apply (X5_risk_monotone 60 "Male" 200 10.0 0.5 true true 15 20.0 0
                          70 "Male" 200 10.0 0.5 true true 15 20.0 0);
    try lra; try (intros; reflexivity).
  - exact (high_risk_ten_year 60 ltac:(lia)).
  - exact (high_risk_ten_year 70 ltac:(lia)).
Defined.

(** X6. Only the exact string "Male" is encoded 1: every other value of
    [sex] gives the result of "Female". *)
Theorem X6_sex_other_than_Male
    (age : R) (sex : string) (sbp tc hdl : R) (smoker diabetes : bool)
    (egfr crp vasc : R) :
  sex <> "Male"%string ->
  estimate_10y_risk age sex sbp tc hdl smoker diabetes egfr crp vasc =
  estimate_10y_risk age "Female" sbp tc hdl smoker diabetes egfr crp vasc.
Proof.
  intros Hs. unfold estimate_10y_risk.
  apply String.eqb_neq in Hs. rewrite Hs. reflexivity.
Qed.

Lemma X6_sex_other_than_Male_witness :
  estimate_10y_risk 60 "male" 140 5.2 1.3 false false 90 2.5 0 =
  estimate_10y_risk 60 "Female" 140 5.2 1.3 false false 90 2.5 0.
Proof. apply X6_sex_other_than_Male. discriminate. Defined.

(** X7. For a profile within the ranges of the form whose linear predictor
    is 10.8 or more, the ten-year risk is exactly the cap, 95.0. *)
Theorem X7_risk_reaches_cap (s : Session.state) :
  Session.in_range s ->
  10.8 <= session_lp s ->
  Session.ten_year s = Ok 95.0.
Proof.
  intros Hs Hlo. pose proof (in_range_lp s Hs) as Hup.
  unfold Session.ten_year, session_lp in *.
  apply estimate_capped.
  - destruct Hs as [_ _ _ _ _ _ Hcrp _ _ _]. lra.
  - unfold exp_max_arg. lra.
Qed.

Lemma X7_risk_reaches_cap_witness :
  Session.ten_year (high_risk 75) = Ok 95.0.
Proof.
  apply X7_risk_reaches_cap.
  - apply high_risk_in_range. lia.
  - pose proof (ln_1p_ge_0 20.0 ltac:(lra)) as Hln.
    unfold session_lp, lp_of, linear_predictor. simpl.
    change (Session.vasc (high_risk 75)) with 0%Z. lra.
Defined.

(** ** The horizon converters *)

Lemma convert_5yr_monotone (r r' : R) :
  r <= r' -> convert_5yr r <= convert_5yr r'.
Proof.
  intros Hr. unfold convert_5yr. apply round_le, min_le_compat.
  pose proof (survival_base_positive r') as Hb.
  pose proof (min_le_compat r r' 95.0 Hr) as Hm.
  assert (H : pow (1 - min r' 95.0 / 100) 0.5 <= pow (1 - min r 95.0 / 100) 0.5)
    by (apply pow_monotone_l; lra).
  lra.
Qed.

Lemma convert_5yr_above_cap (r : R) : 95.0 <= r -> convert_5yr r = 77.6.
Proof.
  intros Hr. unfold convert_5yr.
  replace (min r 95.0) with 95.0 by (unfold min; now rewrite Rmin_right).
  replace (1 - 95.0 / 100) with 0.05 by lra.
  assert (Hlo : 0.2236 <= pow 0.05 0.5).
  { apply Rle_trans with (pow (pow 0.2236 (INR 2)) 0.5).
    - rewrite pow_pow. replace (INR 2 * 0.5) with 1 by (simpl; lra).
      rewrite pow_1_r by lra. apply Rle_refl.
    - apply pow_monotone_l; [lra |]. rewrite pow_nat by lra. simpl. lra. }
  assert (Hhi : pow 0.05 0.5 <= 0.2237).
  { apply Rle_trans with (pow (pow 0.2237 (INR 2)) 0.5).
    - apply pow_monotone_l; [lra |]. rewrite pow_nat by lra. simpl. lra.
    - rewrite pow_pow. replace (INR 2 * 0.5) with 1 by (simpl; lra).
      rewrite pow_1_r by lra. apply Rle_refl. }
  replace 77.6 with (IZR 776 / 10) by lra.
  apply round_nearest. unfold min. rewrite Rmin_left by lra. lra.
Qed.

(** X8. The five-year risk never decreases when the ten-year risk
    increases, for any two numbers. *)
Theorem X8_convert_5yr_monotone (r r' : R) :
  r <= r' -> convert_5yr r <= convert_5yr r'.
Proof. apply convert_5yr_monotone. Qed.

Lemma X8_convert_5yr_monotone_witness : convert_5yr 10 <= convert_5yr 20.
Proof. apply X8_convert_5yr_monotone. lra. Defined.



(** X10. For every ten-year risk that [estimate_10y_risk] returns, the
    lifetime risk at age 80, five years before the end of the horizon, is
    the five-year risk. *)
Theorem X10_lifetime_at_80
    (age : R) (sex : string) (sbp tc hdl : R) (smoker diabetes : bool)
    (egfr crp vasc : R) (r : R) :
  estimate_10y_risk age sex sbp tc hdl smoker diabetes egfr crp vasc = Ok r ->
  estimate_lifetime_risk 80 r = convert_5yr r.
Proof. intros _. apply lifetime_80. Qed.

Lemma X10_lifetime_at_80_witness :
  estimate_lifetime_risk 80 95.0 = convert_5yr 95.0.
Proof.
  apply (X10_lifetime_at_80 75 "Male" 200 10.0 0.5 true true 15 20.0 0).
  exact (high_risk_ten_year 75 ltac:(lia)).
Defined.

(** X11. For every ten-year risk that [estimate_10y_risk] returns and every
    age up to 80, the five-year risk is at most the lifetime risk. *)
Theorem X11_five_year_le_lifetime
    (age : R) (sex : string) (sbp tc hdl : R) (smoker diabetes : bool)
    (egfr crp vasc : R) (r : R) (a : R) :
  estimate_10y_risk age sex sbp tc hdl smoker diabetes egfr crp vasc = Ok r ->
  a <= 80 ->
  convert_5yr r <= estimate_lifetime_risk a r.
Proof.
  intros Hr Ha.
  destruct (estimate_returns_percentage _ _ _ _ _ _ _ _ _ _ _ Hr)
    as (Hrange & _).
  rewrite <- lifetime_80. apply lifetime_antitone_age; lra.
Qed.

Lemma X11_five_year_le_lifetime_witness :
  convert_5yr 95.0 <= estimate_lifetime_risk 60 95.0.
Proof.
  apply (X11_five_year_le_lifetime 60 "Male" 200 10.0 0.5 true true 15 20.0 0).
  - exact (high_risk_ten_year 60 ltac:(lia)).
  - lra.
Defined.

(** X12. The five-year risk never exceeds 77.6, and it is exactly 77.6 for
    every ten-year risk of 95.0 or more: the cap at 95.0 inside
    [convert_5yr] is never reached. *)
Theorem X12_convert_5yr_at_most_77_6 :
  (forall r : R, convert_5yr r <= 77.6) /\
  (forall r : R, 95.0 <= r -> convert_5yr r = 77.6).
Proof.
  split; [| exact convert_5yr_above_cap].
  intros r. destruct (Rle_dec r 95.0) as [H | H].
  - rewrite <- (convert_5yr_above_cap 95.0) by lra.
    now apply convert_5yr_monotone.
  - right. apply convert_5yr_above_cap. lra.
Qed.

Lemma X12_convert_5yr_at_most_77_6_witness : convert_5yr 120 = 77.6.
Proof. apply (proj2 X12_convert_5yr_at_most_77_6). lra. Defined.

(** ** The Results step *)

Lemma lifetime_le_ten_year (age r : R) (k : Z) :
  0 <= r <= 95.0 -> r = IZR k / 10 -> 75 <= age ->
  estimate_lifetime_risk age r <= r.
Proof.
  intros Hr Hk Hage.
  rewrite <- (lifetime_at_75 r Hr 75 k Hk eq_refl) at 2.
  apply lifetime_antitone_age; lra.
Qed.

Lemma round_100 : round 100 1 = 100.
Proof. replace 100 with (IZR 1000 / 10) by lra. now rewrite round_tenth. Qed.

(** The high-risk session at age 84, evaluated. *)
Lemma lifetime_84_value : estimate_lifetime_risk 84 95.0 = 25.9.
Proof.
  rewrite lifetime_form. unfold max. rewrite Rmax_left by lra.
  replace (min 95.0 95.0) with 95.0 by (unfold min; now rewrite Rmin_left).
  replace (1 - 95.0 / 100) with 0.05 by lra.
  replace ((85 - 84) / 10) with (1 / 10) by lra.
  assert (Hlo : 0.7406 <= pow 0.05 (1 / 10)).
  { apply Rle_trans with (pow (pow 0.7406 (INR 10)) (1 / 10)).
    - rewrite pow_pow. replace (INR 10 * (1 / 10)) with 1 by (simpl; lra).
      rewrite pow_1_r by lra. apply Rle_refl.
    - apply pow_monotone_l; [lra |]. rewrite pow_nat by lra. simpl. lra. }
  assert (Hhi : pow 0.05 (1 / 10) <= 0.7414).
  { apply Rle_trans with (pow (pow 0.7414 (INR 10)) (1 / 10)).
    - apply pow_monotone_l; [lra |]. rewrite pow_nat by lra. simpl. lra.
    - rewrite pow_pow. replace (INR 10 * (1 / 10)) with 1 by (simpl; lra).
      rewrite pow_1_r by lra. apply Rle_refl. }
  replace 25.9 with (IZR 259 / 10) by lra.
  apply round_nearest. unfold min. rewrite Rmin_left by lra. lra.
Qed.

Lemma results_high_risk_84 :
  Session.results_step (high_risk 84) =
  Ok {| Session.r5 := convert_5yr 95.0; Session.r10 := 95.0;
        Session.rlt := estimate_lifetime_risk 84 95.0;
        Session.lifetime := fmt_pct (estimate_lifetime_risk 84 95.0);
        Session.chart_y :=
          [Some (convert_5yr 95.0); Some 95.0;
           Some (estimate_lifetime_risk 84 95.0)];
        Session.arr10 := Some (95.0 - estimate_lifetime_risk 84 95.0);
        Session.rrr10 := Some 72.7 |}.
Proof.
  unfold Session.results_step.
  rewrite (high_risk_ten_year 84 ltac:(lia)). cbn [bind].
  change (Session.age (high_risk 84)) with 84%Z.
  unfold Session.arr10_of, Session.lifetime_of.
  change (84 <? 85)%Z with true. change (85 <=? 84)%Z with false.
  unfold Session.rrr10_of, truthy.
  rewrite lifetime_84_value.
  destruct (Req_dec_T (95.0 - 25.9) 0) as [H | _]; [lra |].
  unfold truediv. destruct (Req_dec_T 95.0 0) as [H | _]; [lra |].
  cbn [bind]. do 3 f_equal.
  replace 72.7 with (IZR 727 / 10) by lra.
  apply round_nearest. lra.
Qed.

(** X14. The value shown as absolute risk reduction, [r10 - rlt], is never
    positive up to age 75 and never negative from age 75 to 84. *)
Theorem X14_arr_sign (s : Session.state) (res : Session.results) :
  Session.results_step s = Ok res ->
  (Session.age s < 85)%Z ->
  exists a : R,
    Session.arr10 res = Some a /\
    ((Session.age s <= 75)%Z -> a <= 0) /\
    ((75 <= Session.age s)%Z -> 0 <= a).
Proof.
  intros Hres Hage.
  destruct (Session.ten_year s) as [r | e] eqn:Hr.
  2:{ unfold Session.results_step in Hres. rewrite Hr in Hres. discriminate. }
  destruct (results_step_returns s r Hr) as (rrr & _ & Hres').
  rewrite Hres' in Hres. injection Hres as <-.
  destruct (estimate_returns_percentage _ _ _ _ _ _ _ _ _ _ _ Hr)
    as (Hrange & k & Hk).
  cbn [Session.arr10]. unfold Session.arr10_of.
  assert (Hlt : (Session.age s <? 85)%Z = true) by (apply Z.ltb_lt; lia).
  rewrite Hlt. eexists. split; [reflexivity |]. split; intros Ha.
  - apply IZR_le in Ha.
    pose proof (lifetime_ge_ten_year r Hrange (IZR (Session.age s)) k Hk Ha).
    lra.
  - apply IZR_le in Ha.
    pose proof (lifetime_le_ten_year (IZR (Session.age s)) r k Hrange Hk Ha).
    lra.
Qed.

Lemma X14_arr_sign_witness :
  exists a : R,
    Some (95.0 - estimate_lifetime_risk 84 95.0) = Some a /\
    ((84 <= 75)%Z -> a <= 0) /\ ((75 <= 84)%Z -> 0 <= a).
Proof.
  apply (X14_arr_sign (high_risk 84) _ results_high_risk_84).
  simpl. lia.
Defined.

(** X15. The value shown as relative risk reduction never exceeds 100. *)
Theorem X15_rrr_at_most_100
    (s : Session.state) (res : Session.results) (x : R) :
  Session.results_step s = Ok res ->
  Session.rrr10 res = Some x ->
  x <= 100.
Proof.
  intros Hres Hx.
  destruct (Session.ten_year s) as [r | e] eqn:Hr.
  2:{ unfold Session.results_step in Hres. rewrite Hr in Hres. discriminate. }
  destruct (results_step_returns s r Hr) as (rrr & Hrrr & Hres').
  rewrite Hres' in Hres. injection Hres as <-.
  cbn [Session.rrr10] in Hx. subst rrr.
  destruct (rrr10_of_outcome (Session.age s) r) as (rrr' & Hrrr' & Hiff & Hval).
  rewrite Hrrr in Hrrr'. injection Hrrr' as <-.
  destruct (estimate_returns_percentage _ _ _ _ _ _ _ _ _ _ _ Hr)
    as (Hrange & _).
  pose proof (estimate_lifetime_risk_range r Hrange (IZR (Session.age s)))
    as Hlt.
  destruct (Session.arr10_of (Session.age s) r
              (estimate_lifetime_risk (IZR (Session.age s)) r))
    as [a |] eqn:Harr.
  2:{ assert (H : Some x = None) by (apply Hiff; now left). discriminate. }
  destruct (Req_dec_T a 0) as [Ha | Ha].
  { subst a. assert (H : Some x = None) by (apply Hiff; now right).
    discriminate. }
  destruct (Hval a eq_refl Ha) as [Hr0 [= ->]].
  unfold Session.arr10_of in Harr.
  destruct (Session.age s <? 85)%Z; [| discriminate].
  injection Harr as <-.
  apply Rle_trans with (round 100 1); [| rewrite round_100; apply Rle_refl].
  apply round_le.
  assert (Hpos : 0 < r) by lra.
  assert (Hq : (r - estimate_lifetime_risk (IZR (Session.age s)) r) / r <= 1).
  { apply Rmult_le_reg_r with r; [exact Hpos |].
    unfold Rdiv. rewrite Rmult_assoc, Rinv_l by lra. lra. }
  lra.
Qed.

Lemma X15_rrr_at_most_100_witness : 72.7 <= 100.
Proof.
  apply (X15_rrr_at_most_100 (high_risk 84) _ 72.7 results_high_risk_84).
  reflexivity.
Defined.

(** X17. Recording more pre-admission therapies never lowers the ten-year
    risk: the count [vasc] of pre-admission therapies enters the linear
    predictor with a positive weight. *)
Theorem X17_pre_therapy_raises_risk
    (s : Session.state) (pre_stat : string) (pre_ez pre_bemp : bool)
    (r r' : R) :
  (Session.vasc s <= Session.vasc (with_pre s pre_stat pre_ez pre_bemp))%Z ->
  Session.ten_year s = Ok r ->
  Session.ten_year (with_pre s pre_stat pre_ez pre_bemp) = Ok r' ->
  r <= r'.
Proof.
  intros Hv Hr Hr'.
  apply (estimate_monotone_lp _ _ _ _ _ _ _ _ _ _ _ _ _ _ _ _ _ _ _ _ _ _
           Hr Hr').
  apply IZR_le in Hv. unfold lp_of, linear_predictor. simpl.
  lra.
Qed.

Lemma X17_pre_therapy_raises_risk_witness : 95.0 <= 95.0.
Proof.
  apply (X17_pre_therapy_raises_risk (high_risk 60) "None" true false).
  - apply Z.leb_le. reflexivity.
  - exact (high_risk_ten_year 60 ltac:(lia)).
  - unfold Session.ten_year. apply estimate_capped; [simpl; lra |].
    pose proof (ln_1p_ge_0 20.0 ltac:(lra)) as Hlo.
    pose proof (ln_1p_le 20.0 ltac:(lra)) as Hhi.
    unfold lp_of, linear_predictor, exp_max_arg. simpl.
    change (Session.vasc (with_pre (high_risk 60) "None" true false)) with 1%Z.
    lra.
Defined.

(** ** The session dictionary *)

Section StoreFacts.

Import Store.

Lemma get_set_same (st : Store.t) (k : string) (v : value) :
  get (set st k v) k = Some v.
Proof.
  induction st as [| [k' v'] st IH]; simpl.
  - now rewrite String.eqb_refl.
  - destruct (String.eqb k k') eqn:Hk; simpl.
    + now rewrite String.eqb_refl.
    + now rewrite Hk.
Qed.

Lemma get_set_other (st : Store.t) (k k' : string) (v : value) :
  k <> k' -> get (set st k v) k' = get st k'.
Proof.
  intros Hne. induction st as [| [k0 v0] st IH]; simpl.
  - assert (H : String.eqb k' k = false) by (apply String.eqb_neq; congruence).
    now rewrite H.
  - destruct (String.eqb k k0) eqn:Hk; simpl.
    + apply String.eqb_eq in Hk. subst k0.
      assert (H : String.eqb k' k = false)
        by (apply String.eqb_neq; congruence).
      now rewrite H.
    + destruct (String.eqb k' k0); [reflexivity | exact IH].
Qed.

Lemma get_init_key (st : Store.t) (k k' : string) (v : value) :
  get (init_key st (k, v)) k' =
  match get st k' with
  | Some x => Some x
  | None => if String.eqb k' k then Some v else None
  end.
Proof.
  unfold init_key, contains. simpl.
  destruct (get st k) as [x |] eqn:Hk.
  - destruct (get st k') as [x' |] eqn:Hk'; [reflexivity |].
    destruct (String.eqb k' k) eqn:He; [| reflexivity].
    apply String.eqb_eq in He. subst k'. congruence.
  - destruct (String.eqb k' k) eqn:He.
    + apply String.eqb_eq in He. subst k'.
      now rewrite get_set_same, Hk.
    + apply String.eqb_neq in He.
      rewrite get_set_other by congruence.
      now destruct (get st k').
Qed.

Lemma get_init_from (d st : Store.t) (k : string) :
  get (init_from d st) k =
  match get st k with
  | Some x => Some x
  | None => get d k
  end.
Proof.
  unfold init_from. revert st.
  induction d as [| [k0 v0] d IH]; intros st; simpl.
  - now destruct (get st k).
  - rewrite IH, get_init_key.
    destruct (get st k); [reflexivity |].
    now destruct (String.eqb k k0).
Qed.

(** A dictionary that already holds every key of [d] is left as it is. *)
Lemma init_from_present (d st : Store.t) :
  (forall k v, In (k, v) d -> contains st k = true) -> init_from d st = st.
Proof.
  unfold init_from. revert st.
  induction d as [| [k0 v0] d IH]; intros st Hall; simpl.
  - reflexivity.
  - unfold init_key at 2. simpl.
    rewrite (Hall k0 v0) by (now left).
    apply IH. intros k v Hin. apply (Hall k v). now right.
Qed.

Lemma get_In (d : Store.t) (k : string) (v : value) :
  In (k, v) d -> get d k <> None.
Proof.
  induction d as [| [k0 v0] d IH]; simpl; [tauto |].
  intros [[= -> ->] | Hin].
  - now rewrite String.eqb_refl.
  - destruct (String.eqb k k0); [discriminate | now apply IH].
Qed.

Lemma get_init_defaults (st : Store.t) (k : string) :
  get (init_defaults st) k =
  match get st k with
  | Some v => Some v
  | None => get defaults k
  end.
Proof. apply get_init_from. Qed.

Lemma first_missing_some (st : Store.t) (ks : list string) (k : string) :
  first_missing st ks = Some k -> In k ks /\ get st k = None.
Proof.
  induction ks as [| k0 ks IH]; simpl; [discriminate |].
  unfold contains. destruct (get st k0) eqn:H0.
  - intros H. destruct (IH H) as [Hin Hnone]. split; [now right | exact Hnone].
  - intros [= <-]. split; [now left | exact H0].
Qed.

End StoreFacts.

(** X18. Initialising the session from the defaults keeps every value that
    is already there, gives every missing default key its default value,
    adds no other key, and changes nothing when run a second time. *)
Theorem X18_init_defaults :
  (forall (st : Store.t) (k : string),
      Store.get (Store.init_defaults st) k =
      match Store.get st k with
      | Some v => Some v
      | None => Store.get Store.defaults k
      end) /\
  (forall st : Store.t,
      Store.init_defaults (Store.init_defaults st) = Store.init_defaults st).
Proof.
  split.
  - intros st k. apply get_init_from.
  - intros st. unfold Store.init_defaults. apply init_from_present.
    intros k v Hin. unfold Store.contains. rewrite get_init_from.
    destruct (Store.get st k); [reflexivity |].
    pose proof (get_In _ _ _ Hin) as Hd.
    now destruct (Store.get Store.defaults k).
Qed.

(** ** The Therapies step *)

Section TherapiesFacts.

Import Store.

Ltac store_simpl :=
  repeat (rewrite get_set_same || rewrite get_set_other by discriminate).

Ltac first_missing_simpl :=
  unfold Therapies.needed, first_missing, contains;
  repeat match goal with H : get _ _ = _ |- _ => rewrite H; clear H end.

Variables (st : Store.t) (c : Therapies.choices).

Lemma getattr_absent (st0 : Store.t) (k : string) :
  get st0 k = None -> getattr st0 k = Failed (AttributeError k).
Proof. intros H. unfold getattr. now rewrite H. Qed.

Lemma getattr_present (st0 : Store.t) (k : string) (v : value) :
  get st0 k = Some v -> getattr st0 k = Done v.
Proof. intros H. unfold getattr. now rewrite H. Qed.

Lemma checkbox_absent (st0 : Store.t) (k : string) (b : bool) :
  get st0 k = None -> Therapies.checkbox st0 k b = Failed (AttributeError k).
Proof.
  intros H. unfold Therapies.checkbox, getattr. now rewrite H.
Qed.

Lemma checkbox_present (st0 : Store.t) (k : string) (b : bool) (v : value) :
  get st0 k = Some v -> Therapies.checkbox st0 k b = Done (set st0 k (VBool b)).
Proof.
  intros H. unfold Therapies.checkbox, getattr. now rewrite H.
Qed.

(** The step fails on the first needed key that is missing, then on a
    baseline LDL that is a string, and otherwise completes. *)
Lemma render_cases :
  (exists k : string,
      first_missing st Therapies.needed = Some k /\
      Therapies.render st c = Failed (AttributeError k)) \/
  (exists s : string,
      get st "ldl0" = Some (VStr s) /\
      Therapies.render st c = Failed TypeError) \/
  (exists (v : value) (b : R),
      (forall k : string, In k Therapies.needed -> get st k <> None) /\
      get st "ldl0" = Some v /\ number v = Done b /\
      Therapies.render st c =
      Done {| Therapies.store := stored st c;
              Therapies.post_ldl :=
                calculate_ldl_projection b (Therapies.pre_list c)
                                           (Therapies.new_list c);
              Therapies.boxes_disabled :=
                Therapies.disabled
                  (calculate_ldl_projection b (Therapies.pre_list c)
                                              (Therapies.new_list c)) |}).
Proof.
  unfold Therapies.render, Therapies.selectbox, Therapies.needed.
  destruct (get st "pre_ez") as [v1 |] eqn:H1.
  2:{ left. exists "pre_ez"%string. split; [now first_missing_simpl |].
      rewrite (checkbox_absent _ "pre_ez") by (store_simpl; exact H1).
      reflexivity. }
  rewrite (checkbox_present _ "pre_ez" _ v1) by (store_simpl; exact H1).
  cbn [and_then].
  destruct (get st "pre_bemp") as [v2 |] eqn:H2.
  2:{ left. exists "pre_bemp"%string. split; [now first_missing_simpl |].
      rewrite (checkbox_absent _ "pre_bemp") by (store_simpl; exact H2).
      reflexivity. }
  rewrite (checkbox_present _ "pre_bemp" _ v2) by (store_simpl; exact H2).
  cbn [and_then].
  destruct (get st "new_ez") as [v3 |] eqn:H3.
  2:{ left. exists "new_ez"%string. split; [now first_missing_simpl |].
      rewrite (checkbox_absent _ "new_ez") by (store_simpl; exact H3).
      reflexivity. }
  rewrite (checkbox_present _ "new_ez" _ v3) by (store_simpl; exact H3).
  cbn [and_then].
  destruct (get st "new_bemp") as [v4 |] eqn:H4.
  2:{ left. exists "new_bemp"%string. split; [now first_missing_simpl |].
      rewrite (checkbox_absent _ "new_bemp") by (store_simpl; exact H4).
      reflexivity. }
  rewrite (checkbox_present _ "new_bemp" _ v4) by (store_simpl; exact H4).
  cbn [and_then].
  destruct (get st "ldl0") as [v5 |] eqn:H5.
  2:{ left. exists "ldl0"%string. split; [now first_missing_simpl |].
      rewrite (getattr_absent _ "ldl0") by (store_simpl; exact H5).
      reflexivity. }
  rewrite (getattr_present _ "ldl0" v5) by (store_simpl; exact H5).
  cbn [and_then].
  destruct (number v5) as [b | e] eqn:Hn.
  2:{ right. left. destruct v5; try discriminate.
      simpl in Hn. injection Hn as <-. exists s. split; reflexivity. }
  cbn [and_then].
  destruct (get st "pcsk9") as [v6 |] eqn:H6.
  2:{ left. exists "pcsk9"%string. split; [now first_missing_simpl |].
      rewrite (checkbox_absent _ "pcsk9") by (store_simpl; exact H6).
      reflexivity. }
  rewrite (checkbox_present _ "pcsk9" _ v6) by (store_simpl; exact H6).
  cbn [and_then].
  destruct (get st "inclisiran") as [v7 |] eqn:H7.
  2:{ left. exists "inclisiran"%string. split; [now first_missing_simpl |].
      rewrite (checkbox_absent _ "inclisiran") by (store_simpl; exact H7).
      reflexivity. }
  rewrite (checkbox_present _ "inclisiran" _ v7) by (store_simpl; exact H7).
  cbn [and_then].
  right. right. exists v5, b. split; [| repeat split; assumption].
  intros k Hk. simpl in Hk.
  destruct Hk as [<- | [<- | [<- | [<- | [<- | [<- | [<- | []]]]]]]];
    congruence.
Qed.

End TherapiesFacts.

(** X19. The Therapies step completes exactly when the session state holds
    every key it reads ([pre_ez], [pre_bemp], [new_ez], [new_bemp], [ldl0],
    [pcsk9], [inclisiran]) and the baseline LDL is not a string.  Otherwise
    it fails: with an attribute error that names the first key, in reading
    order, that is missing, or with a type error on a baseline LDL that is a
    string. *)
Theorem X19_render_completes_iff (st : Store.t) (c : Therapies.choices) :
  ((exists out : Therapies.rendered, Therapies.render st c = Store.Done out)
   <->
   (forall k : string, In k Therapies.needed -> Store.get st k <> None) /\
   (forall s : string, Store.get st "ldl0" <> Some (Store.VStr s))) /\
  ((exists out : Therapies.rendered, Therapies.render st c = Store.Done out)
   \/
   (exists k : string,
       first_missing st Therapies.needed = Some k /\
       Therapies.render st c = Store.Failed (Store.AttributeError k))
   \/
   (exists s : string,
       Store.get st "ldl0" = Some (Store.VStr s) /\
       Therapies.render st c = Store.Failed Store.TypeError)).
Proof.
  destruct (render_cases st c)
    as [(k & Hk & Hr) | [(s & Hs & Hr) | (v & b & Hall & Hv & Hn & Hr)]].
  - split; [| right; left; now exists k].
    split.
    + intros [out Hout]. rewrite Hr in Hout. discriminate.
    + intros [Hall _]. exfalso.
      destruct (first_missing_some _ _ _ Hk) as [Hin Hnone].
      exact (Hall k Hin Hnone).
  - split; [| right; right; now exists s].
    split.
    + intros [out Hout]. rewrite Hr in Hout. discriminate.
    + intros [_ Hstr]. exfalso. exact (Hstr s Hs).
  - split; [| left; eexists; exact Hr].
    split.
    + intros _. split; [exact Hall |].
      intros s Hs. rewrite Hs in Hv. injection Hv as <-. discriminate.
    + intros _. eexists. exact Hr.
Qed.

(** X20. No code of the application ever sets [pcsk9]: in a session
    initialised from the defaults that does not already hold that key (and
    whose baseline LDL is not a string), the Therapies step fails on reading
    [st.session_state.pcsk9], whatever the user selects. *)
Theorem X20_therapies_step_fails_on_pcsk9
    (st : Store.t) (c : Therapies.choices) :
  Store.get st "pcsk9" = None ->
  (forall s : string, Store.get st "ldl0" <> Some (Store.VStr s)) ->
  Therapies.render (Store.init_defaults st) c =
  Store.Failed (Store.AttributeError "pcsk9").
Proof.
  intros Hp Hl.
  pose proof (get_init_defaults st) as Hget.
  destruct (render_cases (Store.init_defaults st) c)
    as [(k & Hk & Hr) | [(s & Hs & Hr) | (v & b & Hall & _)]].
  - rewrite Hr. do 2 f_equal.
    revert Hk. unfold Therapies.needed, first_missing, Store.contains.
    rewrite !Hget, Hp. simpl.
    repeat match goal with
           | |- context [Store.get st ?x] => destruct (Store.get st x)
           end; now intros [= <-].
  - exfalso. rewrite Hget in Hs.
    destruct (Store.get st "ldl0") as [v |] eqn:Hv.
    + injection Hs as ->. exact (Hl s eq_refl).
    + simpl in Hs. discriminate.
  - exfalso. apply (Hall "pcsk9"%string); [simpl; tauto |].
    rewrite Hget, Hp. reflexivity.
Qed.

Lemma X20_therapies_step_fails_on_pcsk9_witness :
  Therapies.render Store.fresh
    {| Therapies.pre_stat := "Atorvastatin 80 mg";
       Therapies.pre_ez := false; Therapies.pre_bemp := false;
       Therapies.new_stat := "None";
       Therapies.new_ez := true; Therapies.new_bemp := false;
       Therapies.pcsk9 := false; Therapies.inclisiran := false |} =
  Store.Failed (Store.AttributeError "pcsk9").
Proof.
  apply (X20_therapies_step_fails_on_pcsk9 (Store.init_step [])).
  - reflexivity.
  - intros s. discriminate.
Defined.

(** A session initialised from the defaults in which the two keys have
    been set by hand. *)
Lemma render_ready (c : Therapies.choices) :
  Therapies.render
    (Store.set (Store.set Store.fresh "pcsk9" (Store.VBool false))
               "inclisiran" (Store.VBool false)) c =
  Store.Done
    {| Therapies.store :=
         stored (Store.set (Store.set Store.fresh "pcsk9" (Store.VBool false))
                           "inclisiran" (Store.VBool false)) c;
       Therapies.post_ldl :=
         calculate_ldl_projection 3.0 (Therapies.pre_list c)
                                      (Therapies.new_list c);
       Therapies.boxes_disabled :=
         Therapies.disabled
           (calculate_ldl_projection 3.0 (Therapies.pre_list c)
                                         (Therapies.new_list c)) |}.
Proof. reflexivity. Qed.

(** X21. When the Therapies step completes, every choice of the user can be
    read back from the session state under its key, every key the step does
    not write keeps its value, and the two boxes are disabled exactly when
    the projected LDL is at most 1.8. *)
Theorem X21_render_stores_choices
    (st : Store.t) (c : Therapies.choices) (out : Therapies.rendered) :
  Therapies.render st c = Store.Done out ->
  let st' := Therapies.store out in
  Store.get st' "pre_stat" = Some (Store.VStr (Therapies.pre_stat c)) /\
  Store.get st' "pre_ez" = Some (Store.VBool (Therapies.pre_ez c)) /\
  Store.get st' "pre_bemp" = Some (Store.VBool (Therapies.pre_bemp c)) /\
  Store.get st' "new_stat" = Some (Store.VStr (Therapies.new_stat c)) /\
  Store.get st' "new_ez" = Some (Store.VBool (Therapies.new_ez c)) /\
  Store.get st' "new_bemp" = Some (Store.VBool (Therapies.new_bemp c)) /\
  Store.get st' "pcsk9" = Some (Store.VBool (Therapies.pcsk9 c)) /\
  Store.get st' "inclisiran" = Some (Store.VBool (Therapies.inclisiran c)) /\
  (forall k : string, ~ In k written -> Store.get st' k = Store.get st k) /\
  (Therapies.boxes_disabled out = true <-> Therapies.post_ldl out <= 1.8).
Proof.
  intros Hout.
  destruct (render_cases st c)
    as [(k & _ & Hr) | [(s & _ & Hr) | (v & b & _ & _ & _ & Hr)]];
    rewrite Hr in Hout; try discriminate.
  injection Hout as <-. cbn [Therapies.store Therapies.post_ldl
                              Therapies.boxes_disabled]. unfold stored.
  repeat split;
    try (repeat (rewrite get_set_same
                 || rewrite get_set_other by discriminate); reflexivity).
  - intros k Hk. unfold written in Hk. simpl in Hk.
    repeat (rewrite get_set_other by (intros <-; apply Hk; tauto)).
    reflexivity.
  - unfold Therapies.disabled. destruct (Rle_dec _ _); [trivial | discriminate].
  - intros H. unfold Therapies.disabled.
    destruct (Rle_dec _ _); [reflexivity | contradiction].
Qed.

Lemma X21_render_stores_choices_witness :
  let c := {| Therapies.pre_stat := "Atorvastatin 80 mg";
              Therapies.pre_ez := true; Therapies.pre_bemp := false;
              Therapies.new_stat := "None";
              Therapies.new_ez := false; Therapies.new_bemp := true;
              Therapies.pcsk9 := false; Therapies.inclisiran := false |} in
  let st := Store.set (Store.set Store.fresh "pcsk9" (Store.VBool false))
                      "inclisiran" (Store.VBool false) in
  Store.get (stored st c) "pre_stat" = Some (Store.VStr "Atorvastatin 80 mg")
  /\ Store.get (stored st c) "age" = Some (Store.VInt 60).
Proof.
  intros c st.
  pose proof (X21_render_stores_choices st c _ (render_ready c)) as H.
  cbn zeta in H. cbn [Therapies.store] in H.
  destruct H as (H1 & _ & _ & _ & _ & _ & _ & _ & Hother & _).
  split; [exact H1 |].
  rewrite Hother; [reflexivity |].
  unfold written. simpl. intros [H | [H | [H | [H | [H | [H | [H | [H | []]]]]]]]];
    discriminate.
Defined.

Lemma ldl_step_one_range (d : string) : 0 <= ldl_step 1 d <= 1.
Proof.
  destruct (ldl_step_factor d) as (f & Hf & Hstep). rewrite Hstep. lra.
Qed.

Lemma statin_step (d : string) : statin d -> ldl_step 1 d <= 0.5.
Proof.
  intros [-> | ->]; unfold ldl_step; simpl; lra.
Qed.

Lemma pre_list_factor (c : Therapies.choices) :
  0 <= ldl_factor (Therapies.pre_list c)
    <= ldl_step 1 (Therapies.pre_stat c).
Proof.
  unfold Therapies.pre_list. simpl. rewrite ldl_factor_cons.
  pose proof (ldl_step_one_range (Therapies.pre_stat c)).
  pose proof (ldl_factor_range
                ((if Therapies.pre_ez c then ["Ezetimibe 10 mg"%string] else [])
                 ++ (if Therapies.pre_bemp c then ["Bempedoic acid"%string]
                     else []))).
  nra.
Qed.

Lemma new_list_factor (c : Therapies.choices) :
  0 <= ldl_factor (Therapies.new_list c)
    <= ldl_step 1 (Therapies.new_stat c).
Proof.
  unfold Therapies.new_list. simpl. rewrite ldl_factor_cons.
  pose proof (ldl_step_one_range (Therapies.new_stat c)).
  pose proof (ldl_factor_range
                ((if Therapies.new_ez c then ["Ezetimibe 10 mg"%string] else [])
                 ++ (if Therapies.new_bemp c then ["Bempedoic acid"%string]
                     else []))).
  nra.
Qed.

(** X22. The PCSK9 inhibitor and inclisiran boxes are disabled whenever the
    baseline LDL is at most 1.8, whenever it is at most 3.6 and a statin is
    selected before or after admission, and whenever it is at most 7.2 (the
    form allows 6.0 at most) and a statin is selected both before and
    after. *)
Theorem X22_boxes_disabled (b : R) (c : Therapies.choices) :
  b <= 1.8 \/
  (b <= 3.6 /\
   (statin (Therapies.pre_stat c) \/ statin (Therapies.new_stat c))) \/
  (b <= 7.2 /\
   statin (Therapies.pre_stat c) /\ statin (Therapies.new_stat c)) ->
  Therapies.disabled
    (calculate_ldl_projection b (Therapies.pre_list c) (Therapies.new_list c))
  = true.
Proof.
  intros H. unfold Therapies.disabled.
  destruct (Rle_dec _ _) as [_ | Hn]; [reflexivity | exfalso; apply Hn].
  rewrite projection_scale, ldl_factor_app. unfold max. apply Rmax_lub; [| lra].
  pose proof (pre_list_factor c) as Hp.
  pose proof (new_list_factor c) as Hq.
  pose proof (ldl_step_one_range (Therapies.pre_stat c)) as Hp1.
  pose proof (ldl_step_one_range (Therapies.new_stat c)) as Hq1.
  set (fp := ldl_factor (Therapies.pre_list c)) in *.
  set (fq := ldl_factor (Therapies.new_list c)) in *.
  assert (Hpq : 0 <= fp * fq <= 1) by nra.
  destruct (Rle_dec b 0) as [Hb | Hb]; [nra |].
  apply Rnot_le_lt in Hb.
  destruct H as [H | [[H [Hs | Hs]] | (H & Hs & Hs')]].
  - nra.
  - apply statin_step in Hs. assert (fp * fq <= 0.5) by nra. nra.
  - apply statin_step in Hs. assert (fp * fq <= 0.5) by nra. nra.
  - apply statin_step in Hs. apply statin_step in Hs'.
    assert (fp * fq <= 0.25) by nra. nra.
Qed.

Lemma X22_boxes_disabled_witness :
  Therapies.disabled
    (calculate_ldl_projection 6.0
       (Therapies.pre_list
          {| Therapies.pre_stat := "Rosuvastatin 20 mg";
             Therapies.pre_ez := false; Therapies.pre_bemp := false;
             Therapies.new_stat := "Atorvastatin 80 mg";
             Therapies.new_ez := false; Therapies.new_bemp := false;
             Therapies.pcsk9 := false; Therapies.inclisiran := false |})
       (Therapies.new_list
          {| Therapies.pre_stat := "Rosuvastatin 20 mg";
             Therapies.pre_ez := false; Therapies.pre_bemp := false;
             Therapies.new_stat := "Atorvastatin 80 mg";
             Therapies.new_ez := false; Therapies.new_bemp := false;
             Therapies.pcsk9 := false; Therapies.inclisiran := false |}))
  = true.
Proof.
  apply X22_boxes_disabled. right. right.
  split; [lra |]. split; [right | left]; reflexivity.
Defined.

(** X23. Whatever the user selects in the Therapies step, every identifier
    handed to [calculate_ldl_projection] is either "None" or a key of the
    reduction-factor table. *)
Theorem X23_selectable_identifiers_known (c : Therapies.choices) (d : string) :
  In (Therapies.pre_stat c) Session.statins ->
  In (Therapies.new_stat c) Session.statins ->
  In d (Therapies.pre_list c ++ Therapies.new_list c) ->
  d = "None"%string \/ in_E d = true.
Proof.
  intros Hp Hn Hd.
  assert (Hstat : forall x : string,
             In x Session.statins -> x = "None"%string \/ in_E x = true).
  { intros x Hx. simpl in Hx. destruct Hx as [<- | [<- | [<- | []]]]; auto. }
  unfold Therapies.pre_list, Therapies.new_list in Hd.
  destruct (Therapies.pre_ez c), (Therapies.pre_bemp c),
           (Therapies.new_ez c), (Therapies.new_bemp c); simpl in Hd;
    repeat (destruct Hd as [<- | Hd]; [auto |]); contradiction.
Qed.

Lemma X23_selectable_identifiers_known_witness :
  "Bempedoic acid"%string = "None"%string \/ in_E "Bempedoic acid" = true.
Proof.
  apply (X23_selectable_identifiers_known
           {| Therapies.pre_stat := "None";
              Therapies.pre_ez := false; Therapies.pre_bemp := true;
              Therapies.new_stat := "Rosuvastatin 20 mg";
              Therapies.new_ez := false; Therapies.new_bemp := false;
              Therapies.pcsk9 := false; Therapies.inclisiran := false |}).
  - simpl. tauto.
  - simpl. tauto.
  - simpl. tauto.
Defined.

(** ** The wizard *)

Section WizardFacts.

Import Wizard.

Lemma press_next (w : state) : press w Next = go_next w.
Proof.
  unfold press, navigate, go_next. simpl.
  now destruct (step w <? 3)%Z.
Qed.

Lemma press_back (w : state) : press w Back = go_back w.
Proof.
  unfold press, navigate, go_back. simpl.
  destruct (0 <? step w)%Z; reflexivity.
Qed.

Lemma step_go_next (w : state) :
  step (go_next w) = if (step w <? 3)%Z then (step w + 1)%Z else step w.
Proof. unfold go_next. now destruct (step w <? 3)%Z. Qed.

Lemma step_go_back (w : state) :
  step (go_back w) = if (0 <? step w)%Z then (step w - 1)%Z else step w.
Proof. unfold go_back. now destruct (0 <? step w)%Z. Qed.

Lemma go_next_range (w : state) :
  (0 <= step w <= 3)%Z -> (0 <= step (go_next w) <= 3)%Z.
Proof.
  intros H. rewrite step_go_next. destruct (Z.ltb_spec (step w) 3); lia.
Qed.

Lemma go_back_range (w : state) :
  (0 <= step w <= 3)%Z -> (0 <= step (go_back w) <= 3)%Z.
Proof.
  intros H. rewrite step_go_back. destruct (Z.ltb_spec 0 (step w)); lia.
Qed.

Lemma navigate_range (back next : bool) (w : state) :
  (0 <= step w <= 3)%Z -> (0 <= step (navigate back next w) <= 3)%Z.
Proof.
  intros H. unfold navigate.
  set (w1 := if back && (0 <? step w)%Z then go_back w else w).
  assert (H1 : (0 <= step w1 <= 3)%Z).
  { unfold w1. destruct (back && (0 <? step w)%Z);
      [now apply go_back_range | exact H]. }
  destruct (next && (step w1 <? 3)%Z); [now apply go_next_range | exact H1].
Qed.

End WizardFacts.

(** X24. Whatever buttons are reported pressed over any number of runs of
    the script, a step between 0 and 3 stays between 0 and 3. *)
Theorem X24_step_stays_in_range
    (runs : list (bool * bool)) (w : Wizard.state) :
  (0 <= Wizard.step w <= 3)%Z ->
  (0 <= Wizard.step
          (fold_left (fun w bn => Wizard.navigate (fst bn) (snd bn) w) runs w)
     <= 3)%Z.
Proof.
  revert w. induction runs as [| [back next] runs IH]; intros w Hw; simpl.
  - exact Hw.
  - apply IH. now apply navigate_range.
Qed.

Lemma X24_step_stays_in_range_witness :
  (0 <= Wizard.step
          (fold_left (fun w bn => Wizard.navigate (fst bn) (snd bn) w)
             [(false, true); (true, true); (true, false)]
             {| Wizard.step := 3; Wizard.log := [] |})
     <= 3)%Z.
Proof. apply X24_step_stays_in_range. simpl. lia. Defined.

(** X25. A press of Back or Next writes one line to the log exactly when it
    changes the step, and that line names the new step; otherwise the state
    is left as it is. *)
Theorem X25_log_follows_step (w : Wizard.state) (c : Wizard.click) :
  (Wizard.step (Wizard.press w c) <> Wizard.step w /\
   Wizard.log (Wizard.press w c) =
   Wizard.log w ++
   [("Moved to step " ++ Wizard.str (Wizard.step (Wizard.press w c)))%string])
  \/ Wizard.press w c = w.
Proof.
  destruct c; [rewrite press_back | rewrite press_next].
  - unfold Wizard.go_back. destruct (0 <? Wizard.step w)%Z; [left | now right].
    simpl. split; [lia | reflexivity].
  - unfold Wizard.go_next. destruct (Wizard.step w <? 3)%Z; [left | now right].
    simpl. split; [lia | reflexivity].
Qed.

(** X26. A call of [go_back] undoes the call of [go_next] before it: from a
    step between 0 and 2 the two calls leave the step as it was and add the
    two lines of the two moves to the log. *)
Theorem X26_back_undoes_next (w : Wizard.state) :
  (0 <= Wizard.step w < 3)%Z ->
  Wizard.go_back (Wizard.go_next w) =
  {| Wizard.step := Wizard.step w;
     Wizard.log :=
       Wizard.log w ++
       [("Moved to step " ++ Wizard.str (Wizard.step w + 1))%string;
        ("Moved to step " ++ Wizard.str (Wizard.step w))%string] |}.
Proof.
  intros Hw. unfold Wizard.go_next.
  assert (H1 : (Wizard.step w <? 3)%Z = true) by (apply Z.ltb_lt; lia).
  rewrite H1. unfold Wizard.go_back. cbn [Wizard.step Wizard.log].
  assert (H2 : (0 <? Wizard.step w + 1)%Z = true) by (apply Z.ltb_lt; lia).
  rewrite H2.
  replace (Wizard.step w + 1 - 1)%Z with (Wizard.step w) by lia.
  unfold Wizard.log_moved. rewrite <- app_assoc. reflexivity.
Qed.

Lemma X26_back_undoes_next_witness :
  Wizard.go_back
    (Wizard.go_next {| Wizard.step := 0; Wizard.log := [] |}) =
  {| Wizard.step := 0;
     Wizard.log := ["Moved to step 1"%string; "Moved to step 0"%string] |}.
Proof.
  apply (X26_back_undoes_next {| Wizard.step := 0; Wizard.log := [] |}).
  simpl. lia.
Defined.

(** X27. [go_next] saturates at the last step: from a step of at most 3,
    [n] calls in a row lead to step [min(step + n, 3)]. *)
Theorem X27_next_saturates (n : nat) (w : Wizard.state) :
  (Wizard.step w <= 3)%Z ->
  Wizard.step (Nat.iter n Wizard.go_next w) =
  Z.min (Wizard.step w + Z.of_nat n) 3.
Proof.
  intros Hw. induction n as [| n IH].
  - simpl. lia.
  - cbn [Nat.iter nat_rect]. rewrite step_go_next.
    change (nat_rect (fun _ => Wizard.state) w
              (fun _ => Wizard.go_next) n) with (Nat.iter n Wizard.go_next w).
    rewrite IH.
    destruct (Z.ltb_spec (Z.min (Wizard.step w + Z.of_nat n) 3) 3); lia.
Qed.

Lemma X27_next_saturates_witness :
  Wizard.step
    (Nat.iter 5 Wizard.go_next {| Wizard.step := 1; Wizard.log := [] |})
  = 3%Z.
Proof.
  apply (X27_next_saturates 5 {| Wizard.step := 1; Wizard.log := [] |}).
  simpl. lia.
Defined.

(** X28. The progress indicator has four cells; for a step between 0 and 3
    exactly one of them, the cell of the current step, has the class
    "current", and for any other step none has. *)
Theorem X28_progress_marks_current_step (w : Wizard.state) :
  List.length (Wizard.progress w) = 4%nat /\
  ((0 <= Wizard.step w <= 3)%Z ->
   count_occ string_dec (Wizard.progress_classes w) "current"%string = 1%nat /\
   nth (Z.to_nat (Wizard.step w)) (Wizard.progress_classes w) ""%string
     = "current"%string) /\
  (~ (0 <= Wizard.step w <= 3)%Z ->
   count_occ string_dec (Wizard.progress_classes w) "current"%string = 0%nat).
Proof.
  split; [reflexivity |].
  change (Wizard.progress_classes w)
    with [Wizard.cls w 0; Wizard.cls w 1; Wizard.cls w 2; Wizard.cls w 3].
  unfold Wizard.cls. split.
  - intros Hw.
    assert (H : Wizard.step w = 0%Z \/ Wizard.step w = 1%Z \/
                Wizard.step w = 2%Z \/ Wizard.step w = 3%Z) by lia.
    destruct H as [-> | [-> | [-> | ->]]]; split; reflexivity.
  - intros Hw.
    assert (H0 : (0 =? Wizard.step w)%Z = false) by (apply Z.eqb_neq; lia).
    assert (H1 : (1 =? Wizard.step w)%Z = false) by (apply Z.eqb_neq; lia).
    assert (H2 : (2 =? Wizard.step w)%Z = false) by (apply Z.eqb_neq; lia).
    assert (H3 : (3 =? Wizard.step w)%Z = false) by (apply Z.eqb_neq; lia).
    rewrite H0, H1, H2, H3. reflexivity.
Qed.

Lemma X28_progress_marks_current_step_witness :
  count_occ string_dec
    (Wizard.progress_classes {| Wizard.step := 2; Wizard.log := [] |})
    "current"%string = 1%nat /\
  nth 2 (Wizard.progress_classes {| Wizard.step := 2; Wizard.log := [] |})
      ""%string = "current"%string.
Proof.
  apply (proj1 (proj2 (X28_progress_marks_current_step
                         {| Wizard.step := 2; Wizard.log := [] |}))).
  simpl. lia.
Defined.

(** ** The body-mass index *)

(** X29. Within the ranges of the form (weight 40 to 200 kg, height 140 to
    210 cm) the body-mass index is computed, without a division by zero, and
    lies between 9 and 103. *)
Theorem X29_bmi (weight height : R) :
  40.0 <= weight <= 200.0 -> 140.0 <= height <= 210.0 ->
  exists b : R, bmi weight height = Ok b /\ 9 < b < 103.
Proof.
  intros Hw Hh. unfold bmi, truediv.
  destruct (Req_dec_T ((height / 100) ^ 2) 0) as [H | H].
  - exfalso. simpl in H. nra.
  - eexists. split; [reflexivity |].
    assert (Hd : 1.96 <= (height / 100) ^ 2 <= 4.41) by (simpl; nra).
    split.
    + apply Rmult_lt_reg_r with ((height / 100) ^ 2); [lra |].
      unfold Rdiv at 2. rewrite Rmult_assoc, Rinv_l by exact H. nra.
    + apply Rmult_lt_reg_r with ((height / 100) ^ 2); [lra |].
      unfold Rdiv at 1. rewrite Rmult_assoc, Rinv_l by exact H. nra.
Qed.

Lemma X29_bmi_witness :
  exists b : R, bmi 75.0 170.0 = Ok b /\ 9 < b < 103.
Proof. apply X29_bmi; lra. Defined.
